(** * Role-scoped notification panel: the three API routes

    A shallow embedding of the server side of the notification panel:

    - [GET]          : [GET  /api/notifications?userId=..&role=..]
    - [POST]         : [POST /api/notifications]
    - [POST_dismiss] : [POST /api/notifications/[id]/dismiss]

    together with the [Notification] table of [db/config.ts], the rows of
    [db/seed.ts], and the part of the client ([NotificationPanel]) that
    calls the routes and labels what they return.

    Modelling conventions.
    - The table is the list of its rows in insertion order; [id] is its
      primary key, so an insert of an id already present is refused by the
      database and surfaces in the route as a thrown error (answered 500).
    - Numbers are mathematical integers ([Z]); this is exact for ids and
      timestamps below 2^53, the range in which JavaScript numbers are
      integers.  [createdAt] is the creation instant in milliseconds.
    - Strings are sequences of code units below 256.
    - The fields of a request body are read at the types the routes
      document (strings); [None] is an absent or [null] field.  The
      dismissal route, which appends what it is sent, is modelled a second
      time on a [userId] of any JSON value ([Untyped]).
    - [ORDER BY createdAt DESC] is executed by the storage engine, which is
      not part of the repository: it is the interface [Engine], of which
      the routes only use the SQL contract (same rows, sorted). *)

From Stdlib Require Import ZArith List String Ascii Bool Lia Permutation Sorted.
From Stdlib Require Import DecimalString DecimalPos.
Import ListNotations.

Local Open Scope string_scope.
Local Open Scope Z_scope.
Local Open Scope list_scope.

(** ** The [Notification] table *)

(** A value of the [dismissed] JSON column: an array of user ids, or any
    other JSON value (which the routes read as the empty array). *)
Inductive Json : Type :=
| JArray (users : list string)
| JOther.

Record Notification : Type := mkNotification {
  id : Z;
  userId : option string;
  title : string;
  role : string;
  message : string;
  dismissed : Json;
  createdAt : Z
}.

Definition Table : Type := list Notification.

(** ** JavaScript helpers used by the routes *)

(** Truthiness of a [string | null | undefined] value: [!v] is its negation. *)
Definition truthy (v : option string) : bool :=
  match v with
  | Some s => negb (s =? "")%string
  | None => false
  end.

(** The string held by a value already known to be truthy. *)
Definition str (v : option string) : string :=
  match v with
  | Some s => s
  | None => ""
  end.

(** [Array.prototype.includes] on an array of strings. *)
Definition includes (l : list string) (x : string) : bool :=
  existsb (fun y => (y =? x)%string) l.

(** [v === s] for a string literal [s]. *)
Definition strictEq (v : option string) (s : string) : bool :=
  match v with
  | Some x => (x =? s)%string
  | None => false
  end.

(** [v || null] for [userId]. *)
Definition orNull (v : option string) : option string :=
  if truthy v then v else None.

(** [m || 0] for the result of [MAX(id)] ([None] is SQL [NULL]). *)
Definition or0 (m : option Z) : Z :=
  match m with
  | Some z => if z =? 0 then 0 else z
  | None => 0
  end.

(** [Array.isArray(n.dismissed) ? n.dismissed : []]. *)
Definition dismissedUsers (n : Notification) : list string :=
  match dismissed n with
  | JArray l => l
  | JOther => []
  end.

(** *** [parseInt] with no radix argument

    [None] is [NaN]; the sign of a zero result is dropped ([-0] is as falsy
    as [0]). *)

Definition isWhiteSpace (c : ascii) : bool :=
  let n := N_of_ascii c in
  ((9 <=? n) && (n <=? 13) || (n =? 32) || (n =? 160))%N.

Fixpoint trimStart (s : string) : string :=
  match s with
  | String c s' => if isWhiteSpace c then trimStart s' else s
  | EmptyString => s
  end.

Definition digitValue (c : ascii) : option Z :=
  let n := Z.of_N (N_of_ascii c) in
  if (48 <=? n) && (n <=? 57) then Some (n - 48)
  else if (97 <=? n) && (n <=? 102) then Some (n - 87)
  else if (65 <=? n) && (n <=? 70) then Some (n - 55)
  else None.

Definition digitIn (R : Z) (c : ascii) : option Z :=
  match digitValue c with
  | Some d => if d <? R then Some d else None
  | None => None
  end.

(** Value of the longest prefix of radix-[R] digits; [acc] is the value read
    so far, [None] as long as no digit was read. *)
Fixpoint digits (R : Z) (s : string) (acc : option Z) : option Z :=
  match s with
  | String c s' =>
      match digitIn R c with
      | Some d =>
          digits R s' (Some (match acc with Some a => a * R + d | None => d end))
      | None => acc
      end
  | EmptyString => acc
  end.

Definition stripSign (s : string) : Z * string :=
  match s with
  | String "-" s' => (-1, s')
  | String "+" s' => (1, s')
  | _ => (1, s)
  end.

Definition stripPrefix (s : string) : Z * string :=
  match s with
  | String "0" (String "x" s') => (16, s')
  | String "0" (String "X" s') => (16, s')
  | _ => (10, s)
  end.

Definition parseInt (s : string) : option Z :=
  let '(sign, s1) := stripSign (trimStart s) in
  let '(R, s2) := stripPrefix s1 in
  match digits R s2 None with
  | Some m => Some (sign * m)
  | None => None
  end.

(** ** The database layer

    A query runs against the table, may change it, may throw, and leaves a
    trace of the statements it sent. *)

Inductive Stmt : Type :=
| SSelect
| SInsert (row : Notification)
| SUpdate (key : Z) (d : list string).

Inductive Outcome (A : Type) : Type :=
| Val (a : A)
| Throw (msg : string).
Arguments Val {A} a.
Arguments Throw {A} msg.

Definition Db (A : Type) : Type := Table -> Outcome A * Table * list Stmt.

Definition ret {A} (a : A) : Db A := fun t => (Val a, t, []).

Definition throw {A} (msg : string) : Db A := fun t => (Throw msg, t, []).

Definition bind {A B} (m : Db A) (f : A -> Db B) : Db B :=
  fun t =>
    let '(o, t1, l1) := m t in
    match o with
    | Val a => let '(o2, t2, l2) := f a t1 in (o2, t2, l1 ++ l2)
    | Throw e => (Throw e, t1, l1)
    end.

Notation "x <- m ;; k" := (bind m (fun x => k))
  (at level 61, m at next level, right associativity).

(** Number of statements of a trace that write to the table. *)
Fixpoint mutations (l : list Stmt) : nat :=
  match l with
  | [] => 0%nat
  | SSelect :: l' => mutations l'
  | _ :: l' => S (mutations l')
  end.

(** The relation [ORDER BY createdAt DESC] establishes. *)
Definition newerFirst (a b : Notification) : Prop := createdAt b <= createdAt a.

(** The storage engine's [ORDER BY createdAt DESC]: the same rows, most
    recent first.  SQL leaves the order of rows with equal keys open. *)
Record Engine : Type := mkEngine {
  orderBy : list Notification -> list Notification;
  orderBy_perm : forall l, Permutation l (orderBy l);
  orderBy_sorted : forall l, StronglySorted newerFirst (orderBy l)
}.

(** [WHERE (role = userRole OR role = 'all') AND (userId IS NULL OR userId = u)] *)
Definition roleMatch (userRole : string) (n : Notification) : bool :=
  (role n =? userRole)%string || (role n =? "all")%string.

Definition audienceMatch (u : string) (n : Notification) : bool :=
  match userId n with
  | None => true
  | Some x => (x =? u)%string
  end.

Definition whereVisible (u userRole : string) (n : Notification) : bool :=
  roleMatch userRole n && audienceMatch u n.

(** [db.select().from(Notification).where(..).orderBy(createdAt DESC)] *)
Definition selectVisible (E : Engine) (u userRole : string)
  : Db (list Notification) :=
  fun t => (Val (orderBy E (filter (whereVisible u userRole) t)), t, [SSelect]).

(** [MAX(id)], [NULL] on the empty table. *)
Fixpoint maxId (t : Table) : option Z :=
  match t with
  | [] => None
  | n :: t' =>
      match maxId t' with
      | Some m => Some (Z.max (id n) m)
      | None => Some (id n)
      end
  end.

Definition selectMaxId : Db (option Z) :=
  fun t => (Val (maxId t), t, [SSelect]).

Definition hasId (k : Z) (n : Notification) : bool := id n =? k.

(** [insert(..).values(row).returning()]; the primary key refuses a row
    whose id is taken. *)
Definition insertReturning (row : Notification) : Db (list Notification) :=
  fun t =>
    if existsb (hasId (id row)) t
    then (Throw "UNIQUE constraint failed: Notification.id", t, [SInsert row])
    else (Val [row], t ++ [row], [SInsert row]).

(** [select().from(Notification).where(eq(id, k)).limit(1)] *)
Definition selectById (k : Z) : Db (list Notification) :=
  fun t => (Val (firstn 1 (filter (hasId k) t)), t, [SSelect]).

Definition setDismissed (d : list string) (n : Notification) : Notification :=
  {| id := id n; userId := userId n; title := title n; role := role n;
     message := message n; dismissed := JArray d; createdAt := createdAt n |}.

Definition updateRow (k : Z) (d : list string) (n : Notification) : Notification :=
  if hasId k n then setDismissed d n else n.

(** [update(Notification).set({dismissed: d}).where(eq(id, k)).returning()] *)
Definition updateDismissed (k : Z) (d : list string) : Db (list Notification) :=
  fun t =>
    let t' := map (updateRow k d) t in
    (Val (filter (hasId k) t'), t', [SUpdate k d]).

(** ** Requests and responses *)

(** Body of [POST /api/notifications]. *)
Module CreateReq.
Record t : Type := mk {
  title : option string;
  message : option string;
  role : option string;
  userId : option string;
  currentUserRole : option string
}.
End CreateReq.

(** Body of [POST /api/notifications/[id]/dismiss]. *)
Module DismissReq.
Record t : Type := mk {
  userId : option string
}.
End DismissReq.

(** The JSON bodies the routes answer with.  A record taken from the head
    of a [returning()] result is [None] when that result is empty. *)
Inductive Payload : Type :=
| Listing (notifications : list Notification) (count : nat)
| Created (notification : option Notification)
| AlreadyDismissed (notification : Notification)
| Dismissed (notification : option Notification)
| Failure (error : string) (details : option string).

Record Response : Type := mkResponse {
  status : Z;
  payload : Payload
}.

Definition Route : Type := Table -> Response * Table * list Stmt.

(** [try { .. } catch (error) { .. 500 .. }] around a route's body. *)
Definition tryCatch (failed : string) (m : Db Response) : Route :=
  fun t =>
    let '(o, t', l) := m t in
    match o with
    | Val r => (r, t', l)
    | Throw e => (mkResponse 500 (Failure failed (Some e)), t', l)
    end.

(** [await request.json()]; [None] is a body that is not a JSON object. *)
Definition requestJson {A} (body : option A) : Db A :=
  match body with
  | Some b => ret b
  | None => throw "Unexpected end of JSON input"
  end.

Definition validRoles : list string := ["admin"; "editor"; "user"; "all"].

(** *** GET /api/notifications *)
Definition GET (E : Engine) (userId userRole : option string) : Route :=
  tryCatch "Failed to fetch notifications"
    (if negb (truthy userId) || negb (truthy userRole)
     then ret (mkResponse 400
                 (Failure "Missing required parameters: userId and role" None))
     else
       notifications <- selectVisible E (str userId) (str userRole) ;;
       let activeNotifications :=
         filter (fun notification =>
                   negb (includes (dismissedUsers notification) (str userId)))
                notifications in
       ret (mkResponse 200
              (Listing activeNotifications (List.length activeNotifications)))).

(** *** POST /api/notifications

    [now] is the value of [new Date()] when the row is built. *)
Definition POST (now : Z) (request : option CreateReq.t) : Route :=
  tryCatch "Failed to create notification"
    (body <- requestJson request ;;
     let title := CreateReq.title body in
     let message := CreateReq.message body in
     let role := CreateReq.role body in
     let userId := CreateReq.userId body in
     let currentUserRole := CreateReq.currentUserRole body in
     if negb (strictEq currentUserRole "admin")
     then ret (mkResponse 403
                 (Failure "Unauthorized: Only admins can create notifications" None))
     else if negb (truthy title) || negb (truthy message) || negb (truthy role)
     then ret (mkResponse 400
                 (Failure "Missing required fields: title, message, role" None))
     else if negb (includes validRoles (str role))
     then ret (mkResponse 400
                 (Failure ("Invalid role. Must be one of: "
                             ++ String.concat ", " validRoles)%string None))
     else
       maxIdResult <- selectMaxId ;;
       let nextId := or0 maxIdResult + 1 in
       rows <- insertReturning
                 {| id := nextId; title := str title; message := str message;
                    role := str role; userId := orNull userId;
                    dismissed := JArray []; createdAt := now |} ;;
       ret (mkResponse 201 (Created (hd_error rows)))).

(** [params.id ? parseInt(params.id) : null]; [None] is [null] or [NaN],
    which the route does not tell apart. *)
Definition notificationIdOf (params_id : option string) : option Z :=
  if truthy params_id then parseInt (str params_id) else None.

(** [!notificationId] *)
Definition noId (notificationId : option Z) : bool :=
  match notificationId with
  | Some k => k =? 0
  | None => true
  end.

(** *** POST /api/notifications/[id]/dismiss *)
Definition POST_dismiss (params_id : option string)
                        (request : option DismissReq.t) : Route :=
  tryCatch "Failed to dismiss notification"
    (let notificationId := notificationIdOf params_id in
     if noId notificationId
     then ret (mkResponse 400 (Failure "Invalid notification ID" None))
     else
       let k := or0 notificationId in
       body <- requestJson request ;;
       let userId := DismissReq.userId body in
       if negb (truthy userId)
       then ret (mkResponse 400 (Failure "Missing required field: userId" None))
       else
         found <- selectById k ;;
         match hd_error found with
         | None => ret (mkResponse 404 (Failure "Notification not found" None))
         | Some notification =>
             let dismissedUsers := dismissedUsers notification in
             if includes dismissedUsers (str userId)
             then ret (mkResponse 200 (AlreadyDismissed notification))
             else
               let updatedDismissed := dismissedUsers ++ [str userId] in
               rows <- updateDismissed k updatedDismissed ;;
               ret (mkResponse 200 (Dismissed (hd_error rows)))
         end).

(** ** The specification's vocabulary *)

(** The error kinds of the specification, by status code. *)
Inductive ErrorKind : Type :=
| InvalidInput
| Forbidden
| NotFound
| StorageFailure.

Definition errorKind (r : Response) : option ErrorKind :=
  if status r =? 400 then Some InvalidInput
  else if status r =? 403 then Some Forbidden
  else if status r =? 404 then Some NotFound
  else if status r =? 500 then Some StorageFailure
  else None.

(** The sequence a listing answers with ([[]] when it answers an error). *)
Definition listed (r : Response) : list Notification :=
  match payload r with
  | Listing l _ => l
  | _ => []
  end.

(** [listVisible(u, r)]: the notifications [GET] answers with. *)
Definition listVisible (E : Engine) (u userRole : string) (t : Table)
  : list Notification :=
  listed (fst (fst (GET E (Some u) (Some userRole) t))).

(** [dismiss(id, u)] as the panel calls it: the id is the path segment. *)
Definition dismiss (segment u : string) : Route :=
  POST_dismiss (Some segment) (Some (DismissReq.mk (Some u))).

(** What a run of a route leaves behind. *)
Definition response (x : Response * Table * list Stmt) : Response := fst (fst x).
Definition table (x : Response * Table * list Stmt) : Table := snd (fst x).
Definition trace (x : Response * Table * list Stmt) : list Stmt := snd x.

(** A field that is empty or missing. *)
Definition missing (v : option string) : Prop := v = None \/ v = Some "".

(** The exposed operations, and sequences of them. *)
Inductive Call : Type :=
| CallList (userId userRole : option string)
| CallCreate (now : Z) (request : option CreateReq.t)
| CallDismiss (params_id : option string) (request : option DismissReq.t).

Definition route (E : Engine) (c : Call) : Route :=
  match c with
  | CallList u r => GET E u r
  | CallCreate now request => POST now request
  | CallDismiss params_id request => POST_dismiss params_id request
  end.

Fixpoint run (E : Engine) (cs : list Call) (t : Table) : Table :=
  match cs with
  | [] => t
  | c :: cs' => run E cs' (table (route E c t))
  end.

(** The primary key: no two rows share an id. *)
Definition keyed (t : Table) : Prop := NoDup (map id t).

(** No [dismissed] array names a user twice. *)
Definition noDuplicates (t : Table) : Prop :=
  forall n, In n t -> NoDup (dismissedUsers n).

(** Every notification of [t] is still in [t'], with a [dismissed] array
    that kept all its users. *)
Definition grows (t t' : Table) : Prop :=
  forall n, In n t ->
    exists n', In n' t' /\ id n' = id n
               /\ incl (dismissedUsers n) (dismissedUsers n')
               /\ (List.length (dismissedUsers n) <= List.length (dismissedUsers n'))%nat.

(** The rows created at instant [c]. *)
Definition stamped (c : Z) (n : Notification) : bool := createdAt n =? c.

(** The rows of the table a viewer is entitled to see, in insertion order. *)
Definition visibleTo (u userRole : string) (n : Notification) : bool :=
  whereVisible u userRole n && negb (includes (dismissedUsers n) u).



(** The id [POST] gives the next notification. *)
Definition nextIdOf (t : Table) : Z := or0 (maxId t) + 1.

(** [m] is the highest id in the store. *)
Definition highest (t : Table) (m : Z) : Prop :=
  In m (map id t) /\ forall n, In n t -> id n <= m.

(** A creation request that passes the authorization and validation checks. *)
Definition accepted (b : CreateReq.t) : bool :=
  strictEq (CreateReq.currentUserRole b) "admin"
  && truthy (CreateReq.title b) && truthy (CreateReq.message b)
  && truthy (CreateReq.role b)
  && includes validRoles (str (CreateReq.role b)).

(** The row [POST] inserts for an accepted request. *)
Definition newRow (now : Z) (b : CreateReq.t) (t : Table) : Notification :=
  {| id := nextIdOf t;
     title := str (CreateReq.title b);
     message := str (CreateReq.message b);
     role := str (CreateReq.role b);
     userId := orNull (CreateReq.userId b);
     dismissed := JArray [];
     createdAt := now |}.

(** ** Two storage engines

    Both sort by insertion into a sorted list; they differ in where a row
    goes among rows of the same instant. *)
Section Insertion.

(** [before x y]: a row stamped [x] goes in front of a row stamped [y]. *)
Variable before : Z -> Z -> bool.
Hypothesis before_true : forall x y, before x y = true -> y <= x.
Hypothesis before_false : forall x y, before x y = false -> x <= y.

Fixpoint place (x : Notification) (l : list Notification) : list Notification :=
  match l with
  | [] => [x]
  | y :: l' =>
      if before (createdAt x) (createdAt y)
      then x :: y :: l'
      else y :: place x l'
  end.

Definition sortWith (l : list Notification) : list Notification :=
  fold_right place [] l.

Lemma place_perm x l : Permutation (x :: l) (place x l).
Proof.
  induction l as [|y l IH]; simpl.
  - apply Permutation_refl.
  - destruct (before (createdAt x) (createdAt y)).
    + apply Permutation_refl.
    + eapply perm_trans; [apply perm_swap|].
      apply perm_skip, IH.
Qed.

Lemma sortWith_perm l : Permutation l (sortWith l).
Proof.
  induction l as [|x l IH]; simpl.
  - constructor.
  - eapply perm_trans; [apply perm_skip, IH|]. apply place_perm.
Qed.

Lemma place_sorted x l :
  StronglySorted newerFirst l -> StronglySorted newerFirst (place x l).
Proof.
  induction 1 as [|y l Hs IH Hy]; simpl.
  - repeat constructor.
  - destruct (before (createdAt x) (createdAt y)) eqn:Hb.
    + apply before_true in Hb.
      constructor; [constructor; assumption|].
      constructor; [exact Hb|].
      rewrite Forall_forall in *. intros z Hz.
      unfold newerFirst in *. specialize (Hy z Hz). lia.
    + apply before_false in Hb.
      constructor; [exact IH|].
      rewrite Forall_forall in *. intros z Hz.
      apply (Permutation_in _ (Permutation_sym (place_perm x l))) in Hz.
      destruct Hz as [<-|Hz]; [exact Hb|auto].
Qed.

Lemma sortWith_sorted l : StronglySorted newerFirst (sortWith l).
Proof.
  induction l as [|x l IH]; simpl.
  - constructor.
  - apply place_sorted, IH.
Qed.

End Insertion.

Lemma geb_true x y : (x >=? y) = true -> y <= x.
Proof. intros H. apply Z.geb_le in H. exact H. Qed.

Lemma geb_false x y : (x >=? y) = false -> x <= y.
Proof. rewrite Z.geb_leb. intros H. apply Z.leb_gt in H. lia. Qed.

Lemma gtb_true x y : (x >? y) = true -> y <= x.
Proof. rewrite Z.gtb_ltb. intros H. apply Z.ltb_lt in H. lia. Qed.

Lemma gtb_false x y : (x >? y) = false -> x <= y.
Proof. rewrite Z.gtb_ltb. intros H. apply Z.ltb_ge in H. exact H. Qed.

(** A row goes in front of the rows that are not more recent: rows of the
    same instant keep their insertion order. *)
Definition stableEngine : Engine :=
  mkEngine (sortWith Z.geb)
    (sortWith_perm Z.geb)
    (sortWith_sorted Z.geb geb_true geb_false).

(** A row goes in front of the rows that are older only: rows of the same
    instant come out in the reverse of their insertion order.  This is not
    the engine the routes run on, which is outside the repository; it is a
    second sort that meets the contract of [Engine], by which statements
    about every engine can be tried on more than one. *)
Definition reversingEngine : Engine :=
  mkEngine (sortWith Z.gtb)
    (sortWith_perm Z.gtb)
    (sortWith_sorted Z.gtb gtb_true gtb_false).

(** The notifications of [db/seed.ts]. *)
Definition maintenance : Notification :=
  {| id := 1; userId := None; title := "System Maintenance Scheduled";
     role := "admin";
     message := "Server maintenance is scheduled for tomorrow at 2 AM UTC. Please inform your users.";
     dismissed := JArray []; createdAt := 1760954400000 |}.

Definition guidelines : Notification :=
  {| id := 2; userId := None; title := "New Content Guidelines";
     role := "editor";
     message := "Updated content guidelines are now available. Please review before publishing new content.";
     dismissed := JArray []; createdAt := 1760970600000 |}.

Definition welcome : Notification :=
  {| id := 3; userId := None; title := "Welcome to the CMS!";
     role := "all";
     message := "Thank you for joining our platform. Explore the features and let us know if you have questions.";
     dismissed := JArray []; createdAt := 1761033600000 |}.

Definition securityAlert : Notification :=
  {| id := 4; userId := Some "user-1"; title := "Security Alert";
     role := "admin";
     message := "Multiple failed login attempts detected from IP 192.168.1.100. Please investigate.";
     dismissed := JArray []; createdAt := 1761038100000 |}.

Definition meeting : Notification :=
  {| id := 5; userId := None; title := "Editorial Meeting Tomorrow";
     role := "editor";
     message := "Don't forget: editorial team meeting tomorrow at 10 AM in Conference Room B.";
     dismissed := JArray []; createdAt := 1761047100000 |}.

Definition seed : Table :=
  [maintenance; guidelines; welcome; securityAlert; meeting].

(** Two notifications created within the same millisecond. *)
Definition twins : Table :=
  [ {| id := 1; userId := None; title := "first"; role := "all";
       message := "inserted first"; dismissed := JArray []; createdAt := 1000 |};
    {| id := 2; userId := None; title := "second"; role := "all";
       message := "inserted second"; dismissed := JArray []; createdAt := 1000 |} ].

(** ** The panel

    The client of the three routes ([NotificationPanel]).  Of the page the
    model keeps what the panel's methods decide: whether the panel is open,
    the notifications it holds, the badge, and which of the four states of
    the panel body is displayed.  The [fetch] of a dismissal is the call of
    the route on the store; that of a load is given by how it ended, which
    for a fetch answered by the route is [fetchNotifications].  Instants are
    in milliseconds. *)

(** [String(k)], [k.toString()] and [`${k}`] for an integer [k] of
    magnitude below 2^53, the integers a JavaScript number holds exactly:
    its decimal expansion.  (From 10^21 on JavaScript writes an exponent,
    which this is not.) *)
Definition toString (k : Z) : string :=
  NilZero.string_of_int (Z.to_int k).

(** [response.ok] *)
Definition ok (r : Response) : bool := (200 <=? status r) && (status r <=? 299).

(** The argument of [showState]. *)
Inductive View : Type :=
| Loading
| Error
| Empty
| ListView.

(** What [updateBadge] writes: the badge's text, whether it carries the
    class [has-notifications], and the bell's [aria-label]. *)
Record Badge : Type := mkBadge {
  textContent : string;
  hasNotifications : bool;
  ariaLabel : string
}.

(** What [formatTimestamp] returns; [OnDate] is the date in the locale's
    format. *)
Inductive Stamp : Type :=
| JustNow
| MinutesAgo (minutes : Z)
| HoursAgo (hours : Z)
| DaysAgo (days : Z)
| OnDate.

(** The body of a listing as the panel reads it ([NotificationResponse]). *)
Record NotificationResponse : Type := mkNotificationResponse {
  data_notifications : list Notification;
  data_count : Z
}.

(** How a [fetch] of the listing ended: with a body read from an answer
    whose status is in 200..299, or otherwise (the request was rejected, or
    answered with another status; the method throws in both cases). *)
Inductive Fetch : Type :=
| Fetched (data : NotificationResponse)
| Failed.

Module NotificationPanel.

Record t : Type := mk {
  userId : string;
  userRole : string;
  isOpen : bool;
  notifications : list Notification;
  badge : Badge;
  shown : View
}.

Definition showState (state : View) (p : t) : t :=
  mk (userId p) (userRole p) (isOpen p) (notifications p) (badge p) state.

Definition updateBadge (count : Z) : Badge :=
  {| textContent := if count >? 99 then "99+" else toString count;
     hasNotifications := count >? 0;
     ariaLabel :=
       if count >? 0
       then ("Open notifications (" ++ toString count ++ " unread)")%string
       else "Open notifications" |}.

(** [loadNotifications(silent)]; [fetched] is how its [fetch] ended. *)
Definition loadNotifications (silent : bool) (fetched : Fetch) (p : t) : t :=
  let p1 := if silent then p else showState Loading p in
  match fetched with
  | Fetched data =>
      let p2 := mk (userId p1) (userRole p1) (isOpen p1) (data_notifications data)
                  (updateBadge (data_count data)) (shown p1) in
      if (List.length (data_notifications data) =? 0)%nat
      then showState Empty p2
      else showState ListView p2
  | Failed => if silent then p1 else showState Error p1
  end.

(** The [fetch] of [loadNotifications], answered by the route on the store. *)
Definition fetchNotifications (E : Engine) (p : t) (store : Table) : Fetch :=
  let response := fst (fst (GET E (Some (userId p)) (Some (userRole p)) store)) in
  match ok response, payload response with
  | true, Listing notifications count =>
      Fetched (mkNotificationResponse notifications (Z.of_nat count))
  | _, _ => Failed
  end.

(** The timer of [init]: one silent load per tick. *)
Fixpoint poll (ticks : list Fetch) (p : t) : t :=
  match ticks with
  | [] => p
  | fetched :: ticks' => poll ticks' (loadNotifications true fetched p)
  end.

(** [dismissNotification(notificationId)] against the store, once its timer
    has fired: the panel, whether the failure alert was raised, and the
    store. *)
Definition dismissNotification (notificationId : Z) (p : t) (store : Table)
  : t * bool * Table :=
  let '(response, store', _) :=
    POST_dismiss (Some (toString notificationId))
      (Some (DismissReq.mk (Some (userId p)))) store in
  if negb (ok response) then (p, true, store')
  else
    let remaining :=
      filter (fun n => negb (id n =? notificationId)) (notifications p) in
    let p' := mk (userId p) (userRole p) (isOpen p) remaining
                (updateBadge (Z.of_nat (List.length remaining))) (shown p) in
    (if (List.length remaining =? 0)%nat then showState Empty p' else p',
     false, store').

(** [hoursDiff < 24], with [hoursDiff] the quotient of the elapsed
    milliseconds by those of an hour. *)
Definition isNotificationNew (now createdAt : Z) : bool :=
  now - createdAt <? 24 * (1000 * 60 * 60).

Definition formatTimestamp (now date : Z) : Stamp :=
  let diff := now - date in
  let minutes := diff / (1000 * 60) in
  let hours := diff / (1000 * 60 * 60) in
  let days := diff / (1000 * 60 * 60 * 24) in
  if minutes <? 1 then JustNow
  else if minutes <? 60 then MinutesAgo minutes
  else if hours <? 24 then HoursAgo hours
  else if days <? 7 then DaysAgo days
  else OnDate.

End NotificationPanel.

(** ** More vocabulary *)

(** Everything of a notification but its [dismissed] array. *)
Definition core (n : Notification)
  : Z * option string * string * string * string * Z :=
  (id n, userId n, title n, role n, message n, createdAt n).

(** A storage engine whose sort is stable: rows of one instant leave
    [ORDER BY] in the order they entered it. *)
Definition keepsTies (E : Engine) : Prop :=
  forall l c, filter (stamped c) (orderBy E l) = filter (stamped c) l.

(** Ids start at 1. *)
Definition positiveIds (t : Table) : Prop := forall n, In n t -> 0 < id n.

(** The body of the last fetch of a run of fetches that did not fail. *)
Fixpoint lastFetched (ticks : list Fetch) : option NotificationResponse :=
  match ticks with
  | [] => None
  | fetched :: ticks' =>
      match lastFetched ticks', fetched with
      | Some data, _ => Some data
      | None, Fetched data => Some data
      | None, Failed => None
      end
  end.

(** The text of a badge is short enough for the bell. *)
Definition fitsBadge (s : string) : Prop := (String.length s <= 3)%nat.

(** The text [parseInt] stops at: nothing, or a character that is not a
    decimal digit. *)
Definition stops (rest : string) : bool :=
  match rest with
  | EmptyString => true
  | String c _ => match digitIn 10 c with Some _ => false | None => true end
  end.

(** A run of white space. *)
Fixpoint isBlank (ws : string) : bool :=
  match ws with
  | EmptyString => true
  | String c ws' => isWhiteSpace c && isBlank ws'
  end.

(** ** The dismissal route on a [userId] of any JSON type

    The routes document the fields of their bodies as strings, and the
    definitions above read them at that type.  The dismissal route does not
    check the type of [userId]: it tests it for truthiness, looks it up in
    the [dismissed] array with [includes], and appends it.  [Untyped] is the
    same route on a [userId] that is any JSON value, over a store whose
    [dismissed] column holds any JSON value.  Numbers are integers, as
    everywhere in this file. *)
Module Untyped.

#[warnings="-register-all"] Inductive Value : Type :=
| VNull
| VBool (b : bool)
| VNumber (z : Z)
| VString (s : string)
| VArray (items : list Value)
| VObject (fields : list (string * Value)).

Record Notification : Type := mkNotification {
  id : Z;
  userId : option string;
  title : string;
  role : string;
  message : string;
  dismissed : Value;
  createdAt : Z
}.

Definition Table : Type := list Notification.

(** [!v] is the negation of this. *)
Definition truthyValue (v : Value) : bool :=
  match v with
  | VNull => false
  | VBool b => b
  | VNumber z => negb (z =? 0)
  | VString s => negb (s =? "")%string
  | VArray _ => true
  | VObject _ => true
  end.

(** The comparison of [includes], between an element [a] of the stored
    array and the [userId] [b] of the request: values of a primitive type
    are the same when they are equal; an array or an object read from the
    request is a new object, the same as none that was read from the
    store. *)
Definition sameValueZero (a b : Value) : bool :=
  match a, b with
  | VNull, VNull => true
  | VBool x, VBool y => Bool.eqb x y
  | VNumber x, VNumber y => x =? y
  | VString x, VString y => (x =? y)%string
  | _, _ => false
  end.

Definition includesValue (l : list Value) (x : Value) : bool :=
  existsb (fun y => sameValueZero y x) l.

(** [Array.isArray(n.dismissed) ? n.dismissed : []]. *)
Definition dismissedUsers (n : Notification) : list Value :=
  match dismissed n with
  | VArray l => l
  | _ => []
  end.

Definition hasId (k : Z) (n : Notification) : bool := id n =? k.

Definition setDismissed (d : list Value) (n : Notification) : Notification :=
  {| id := id n; userId := userId n; title := title n; role := role n;
     message := message n; dismissed := VArray d; createdAt := createdAt n |}.

Definition updateRow (k : Z) (d : list Value) (n : Notification) : Notification :=
  if hasId k n then setDismissed d n else n.

(** The answers of the route, by what they carry. *)
Inductive Answer : Type :=
| InvalidId
| Unreadable
| MissingUserId
| NoSuchNotification
| AlreadyDismissed (notification : Notification)
| Dismissed (notification : option Notification).

Definition status (a : Answer) : Z :=
  match a with
  | InvalidId => 400
  | Unreadable => 500
  | MissingUserId => 400
  | NoSuchNotification => 404
  | AlreadyDismissed _ => 200
  | Dismissed _ => 200
  end.

(** [POST /api/notifications/[id]/dismiss]: the answer, the store, and the
    number of [UPDATE] statements sent.  [request] is the [userId] of the
    body ([VNull] when the body has none), [None] when the body cannot be
    read. *)
Definition POST_dismiss (params_id : option string) (request : option Value)
                        (t : Table) : Answer * Table * nat :=
  let notificationId := notificationIdOf params_id in
  if noId notificationId then (InvalidId, t, 0%nat)
  else
    let k := or0 notificationId in
    match request with
    | None => (Unreadable, t, 0%nat)
    | Some userId =>
        if negb (truthyValue userId) then (MissingUserId, t, 0%nat)
        else
          match hd_error (firstn 1 (filter (hasId k) t)) with
          | None => (NoSuchNotification, t, 0%nat)
          | Some notification =>
              let dismissedUsers := dismissedUsers notification in
              if includesValue dismissedUsers userId
              then (AlreadyDismissed notification, t, 0%nat)
              else
                let updatedDismissed := dismissedUsers ++ [userId] in
                let t' := map (updateRow k updatedDismissed) t in
                (Dismissed (hd_error (filter (hasId k) t')), t', 1%nat)
          end
    end.

(** [MAX(id)], [NULL] on the empty table. *)
Fixpoint maxId (t : Table) : option Z :=
  match t with
  | [] => None
  | n :: t' =>
      match maxId t' with
      | Some m => Some (Z.max (id n) m)
      | None => Some (id n)
      end
  end.

(** [POST /api/notifications] on this store: the status of the answer and
    the store.  The body is read at the documented types; the primary key
    refuses a row whose id is taken. *)
Definition POST (now : Z) (request : option CreateReq.t) (t : Table)
  : Z * Table :=
  match request with
  | None => (500, t)
  | Some body =>
      if negb (strictEq (CreateReq.currentUserRole body) "admin") then (403, t)
      else if negb (truthy (CreateReq.title body))
              || negb (truthy (CreateReq.message body))
              || negb (truthy (CreateReq.role body))
      then (400, t)
      else if negb (includes validRoles (str (CreateReq.role body)))
      then (400, t)
      else
        let nextId := or0 (maxId t) + 1 in
        if existsb (hasId nextId) t then (500, t)
        else
          (201,
           t ++ [ {| id := nextId; title := str (CreateReq.title body);
                     message := str (CreateReq.message body);
                     role := str (CreateReq.role body);
                     userId := orNull (CreateReq.userId body);
                     dismissed := VArray []; createdAt := now |} ])
  end.

(** The exposed operations on this store, and sequences of them.  A
    listing only reads. *)
Inductive Call : Type :=
| CallList (userId userRole : option string)
| CallCreate (now : Z) (request : option CreateReq.t)
| CallDismiss (params_id : option string) (request : option Value).

Definition step (c : Call) (t : Table) : Table :=
  match c with
  | CallList _ _ => t
  | CallCreate now request => snd (POST now request t)
  | CallDismiss params_id request => snd (fst (POST_dismiss params_id request t))
  end.

Fixpoint run (cs : list Call) (t : Table) : Table :=
  match cs with
  | [] => t
  | c :: cs' => run cs' (step c t)
  end.

(** The primary key: no two rows share an id. *)
Definition keyed (t : Table) : Prop := NoDup (map id t).

(** No array stored in a [dismissed] column holds the same entry twice. *)
Definition noDuplicates (t : Table) : Prop :=
  forall n l, In n t -> dismissed n = VArray l -> NoDup l.

(** Every notification of [t] is still in [t'], under its id; if its
    [dismissed] column held an array, it holds an array in [t'] that kept
    all the entries and is no shorter. *)
Definition grows (t t' : Table) : Prop :=
  forall n, In n t ->
    exists n', In n' t' /\ id n' = id n
               /\ forall l, dismissed n = VArray l ->
                    exists l', dismissed n' = VArray l' /\ incl l l'
                               /\ (List.length l <= List.length l')%nat.



End Untyped.

(** A typed [userId] and a typed row, as values of any JSON type. *)
Definition untypedValue (v : option string) : Untyped.Value :=
  match v with
  | Some s => Untyped.VString s
  | None => Untyped.VNull
  end.

Definition untyped (n : Notification) : Untyped.Notification :=
  {| Untyped.id := id n; Untyped.userId := userId n; Untyped.title := title n;
     Untyped.role := role n; Untyped.message := message n;
     Untyped.dismissed :=
       match dismissed n with
       | JArray l => Untyped.VArray (map Untyped.VString l)
       | JOther => Untyped.VNull
       end;
     Untyped.createdAt := createdAt n |}.



(** ** Facts about the helpers *)

Lemma truthy_Some s : truthy (Some s) = true <-> s <> "".
Proof.
  simpl. destruct (String.eqb_spec s ""); simpl; split; congruence.
Qed.

Lemma truthy_false v : truthy v = false <-> missing v.
Proof.
  unfold missing. destruct v as [s|]; simpl.
  - destruct (String.eqb_spec s "") as [->|Hs]; simpl.
    + split; auto.
    + split; [discriminate|]. intros [H|H]; congruence.
  - split; auto.
Qed.

Lemma includes_In l x : includes l x = true <-> In x l.
Proof.
  unfold includes. rewrite existsb_exists. split.
  - intros [y [Hy He]]. apply String.eqb_eq in He. subst. exact Hy.
  - intros H. exists x. split; [exact H|apply String.eqb_refl].
Qed.

Lemma includes_notIn l x : includes l x = false <-> ~ In x l.
Proof.
  rewrite <- includes_In. destruct (includes l x); split; congruence.
Qed.

Lemma roleMatch_iff r n : roleMatch r n = true <-> role n = r \/ role n = "all".
Proof.
  unfold roleMatch. rewrite orb_true_iff, !String.eqb_eq. reflexivity.
Qed.

Lemma audienceMatch_iff u n :
  audienceMatch u n = true <-> userId n = None \/ userId n = Some u.
Proof.
  unfold audienceMatch. destruct (userId n) as [x|].
  - rewrite String.eqb_eq. split.
    + intros ->. right. reflexivity.
    + intros [H|H]; congruence.
  - split; auto.
Qed.

Lemma visibleTo_iff u r n :
  visibleTo u r n = true <->
  (role n = r \/ role n = "all")
  /\ (userId n = None \/ userId n = Some u)
  /\ ~ In u (dismissedUsers n).
Proof.
  unfold visibleTo, whereVisible.
  rewrite !andb_true_iff, negb_true_iff, roleMatch_iff, audienceMatch_iff,
    includes_notIn.
  tauto.
Qed.

(** ** GET /api/notifications *)

Lemma GET_missing E userId userRole t :
  truthy userId = false \/ truthy userRole = false ->
  GET E userId userRole t
  = (mkResponse 400
       (Failure "Missing required parameters: userId and role" None), t, []).
Proof.
  intros H. unfold GET, tryCatch.
  replace (negb (truthy userId) || negb (truthy userRole)) with true.
  - reflexivity.
  - destruct H as [-> | ->]; simpl; [reflexivity|].
    destruct (truthy userId); reflexivity.
Qed.

Lemma GET_listing E u r t :
  u <> "" -> r <> "" ->
  GET E (Some u) (Some r) t
  = (let l := filter (fun n => negb (includes (dismissedUsers n) u))
                (orderBy E (filter (whereVisible u r) t)) in
     (mkResponse 200 (Listing l (List.length l)), t, [SSelect])).
Proof.
  intros Hu Hr. apply truthy_Some in Hu. apply truthy_Some in Hr.
  unfold GET, tryCatch. rewrite Hu, Hr. reflexivity.
Qed.

Lemma listVisible_eq E u r t :
  u <> "" -> r <> "" ->
  listVisible E u r t
  = filter (fun n => negb (includes (dismissedUsers n) u))
      (orderBy E (filter (whereVisible u r) t)).
Proof.
  intros Hu Hr. unfold listVisible. rewrite GET_listing by assumption.
  reflexivity.
Qed.

Lemma listVisible_missing E u r t :
  u = "" \/ r = "" -> listVisible E u r t = [].
Proof.
  intros H. unfold listVisible. rewrite GET_missing; [reflexivity|].
  destruct H as [-> | ->]; [left|right]; reflexivity.
Qed.

(** Membership in a listing, for a well-formed viewer. *)
Lemma In_listVisible E u r t n :
  u <> "" -> r <> "" ->
  (In n (listVisible E u r t) <-> In n t /\ visibleTo u r n = true).
Proof.
  intros Hu Hr. rewrite listVisible_eq by assumption.
  rewrite filter_In. unfold visibleTo. rewrite andb_true_iff.
  split.
  - intros [Hin Hd].
    apply (Permutation_in _ (Permutation_sym (orderBy_perm E _))) in Hin.
    apply filter_In in Hin. tauto.
  - intros [Hin [Hw Hd]]. split; [|exact Hd].
    apply (Permutation_in _ (orderBy_perm E _)).
    apply filter_In. tauto.
Qed.

Lemma StronglySorted_filter {A} (R : A -> A -> Prop) (p : A -> bool) l :
  StronglySorted R l -> StronglySorted R (filter p l).
Proof.
  induction 1 as [|x l Hs IH Hx]; simpl.
  - constructor.
  - destruct (p x); [|exact IH].
    constructor; [exact IH|].
    rewrite Forall_forall in *. intros y Hy.
    apply filter_In in Hy. apply Hx, Hy.
Qed.

Lemma listVisible_sorted E u r t :
  StronglySorted newerFirst (listVisible E u r t).
Proof.
  destruct (string_dec u "") as [Hu|Hu];
    [rewrite listVisible_missing by auto; constructor|].
  destruct (string_dec r "") as [Hr|Hr];
    [rewrite listVisible_missing by auto; constructor|].
  rewrite listVisible_eq by assumption.
  apply StronglySorted_filter, orderBy_sorted.
Qed.


Lemma filter_and {A} (p q : A -> bool) l :
  filter (fun x => p x && q x) l = filter q (filter p l).
Proof.
  induction l as [|x l IH]; simpl; [reflexivity|].
  destruct (p x) eqn:Hp; simpl; [|exact IH].
  destruct (q x); rewrite IH; reflexivity.
Qed.


(** ** POST /api/notifications *)

Lemma or0_Some m : or0 (Some m) = m.
Proof.
  simpl. destruct (Z.eqb_spec m 0); congruence.
Qed.

Lemma maxId_None t : maxId t = None <-> t = [].
Proof.
  destruct t as [|n t]; simpl.
  - split; reflexivity.
  - destruct (maxId t); split; discriminate.
Qed.

Lemma maxId_bound t m : maxId t = Some m -> forall n, In n t -> id n <= m.
Proof.
  revert m. induction t as [|x t IH]; simpl; intros m Hm n Hn; [contradiction|].
  destruct (maxId t) as [m'|] eqn:Ht.
  - injection Hm as <-. destruct Hn as [<-|Hn]; [lia|].
    specialize (IH m' eq_refl n Hn). lia.
  - injection Hm as <-. apply maxId_None in Ht. subst t.
    destruct Hn as [<-|[]]. lia.
Qed.

Lemma maxId_In t m : maxId t = Some m -> In m (map id t).
Proof.
  revert m. induction t as [|x t IH]; simpl; intros m Hm; [discriminate|].
  destruct (maxId t) as [m'|] eqn:Ht.
  - injection Hm as <-.
    destruct (Z.max_spec (id x) m') as [[_ ->]|[_ ->]]; auto.
  - injection Hm as <-. auto.
Qed.

Lemma maxId_highest t m : maxId t = Some m <-> highest t m.
Proof.
  split.
  - intros H. split; [apply maxId_In, H|apply maxId_bound, H].
  - intros [Hin Hb]. destruct (maxId t) as [m'|] eqn:Ht.
    + f_equal. apply in_map_iff in Hin. destruct Hin as [n [<- Hn]].
      pose proof (maxId_bound _ _ Ht n Hn).
      pose proof (maxId_In _ _ Ht) as H'.
      apply in_map_iff in H'. destruct H' as [n' [<- Hn']].
      specialize (Hb n' Hn'). lia.
    + apply maxId_None in Ht. subst t. destruct Hin.
Qed.

Lemma nextIdOf_highest t m : highest t m -> nextIdOf t = m + 1.
Proof.
  intros H. apply maxId_highest in H. unfold nextIdOf.
  rewrite H, or0_Some. reflexivity.
Qed.

Lemma nextIdOf_above t n : In n t -> id n < nextIdOf t.
Proof.
  intros Hn. unfold nextIdOf. destruct (maxId t) as [m|] eqn:Ht.
  - rewrite or0_Some. pose proof (maxId_bound _ _ Ht n Hn). lia.
  - apply maxId_None in Ht. subst t. destruct Hn.
Qed.

(** The id [POST] computes is not taken: the insert is never refused. *)
Lemma nextIdOf_fresh t : existsb (hasId (nextIdOf t)) t = false.
Proof.
  destruct (existsb (hasId (nextIdOf t)) t) eqn:H; [|reflexivity].
  apply existsb_exists in H. destruct H as [n [Hn Hk]].
  unfold hasId in Hk. apply Z.eqb_eq in Hk.
  pose proof (nextIdOf_above t n Hn). lia.
Qed.

Lemma POST_nobody now t :
  POST now None t
  = (mkResponse 500 (Failure "Failed to create notification"
                       (Some "Unexpected end of JSON input")), t, []).
Proof. reflexivity. Qed.

Lemma POST_forbidden now b t :
  strictEq (CreateReq.currentUserRole b) "admin" = false ->
  POST now (Some b) t
  = (mkResponse 403
       (Failure "Unauthorized: Only admins can create notifications" None), t, []).
Proof.
  intros H. unfold POST, tryCatch, requestJson, bind, ret. rewrite H. reflexivity.
Qed.

Lemma POST_incomplete now b t :
  strictEq (CreateReq.currentUserRole b) "admin" = true ->
  truthy (CreateReq.title b) && truthy (CreateReq.message b)
    && truthy (CreateReq.role b) = false ->
  POST now (Some b) t
  = (mkResponse 400
       (Failure "Missing required fields: title, message, role" None), t, []).
Proof.
  intros Ha H. unfold POST, tryCatch, requestJson, bind, ret. rewrite Ha. simpl negb.
  cbv iota.
  replace (negb (truthy (CreateReq.title b)) || negb (truthy (CreateReq.message b))
           || negb (truthy (CreateReq.role b))) with true; [reflexivity|].
  destruct (truthy (CreateReq.title b)), (truthy (CreateReq.message b)),
    (truthy (CreateReq.role b)); simpl in *; congruence.
Qed.

Lemma POST_badRole now b t :
  strictEq (CreateReq.currentUserRole b) "admin" = true ->
  truthy (CreateReq.title b) && truthy (CreateReq.message b)
    && truthy (CreateReq.role b) = true ->
  includes validRoles (str (CreateReq.role b)) = false ->
  POST now (Some b) t
  = (mkResponse 400
       (Failure "Invalid role. Must be one of: admin, editor, user, all" None),
     t, []).
Proof.
  intros Ha H Hr. unfold POST, tryCatch, requestJson, bind, ret. rewrite Ha, Hr.
  apply andb_true_iff in H. destruct H as [H H3].
  apply andb_true_iff in H. destruct H as [H1 H2].
  rewrite H1, H2, H3. reflexivity.
Qed.

Lemma POST_accepted now b t :
  accepted b = true ->
  POST now (Some b) t
  = (mkResponse 201 (Created (Some (newRow now b t))),
     t ++ [newRow now b t], [SSelect; SInsert (newRow now b t)]).
Proof.
  unfold accepted. rewrite !andb_true_iff.
  intros [[[[Ha H1] H2] H3] Hr].
  unfold POST, tryCatch, requestJson, bind, ret, selectMaxId, insertReturning.
  rewrite Ha, H1, H2, H3, Hr. cbn [negb orb id].
  change (or0 (maxId t) + 1) with (nextIdOf t).
  rewrite nextIdOf_fresh. reflexivity.
Qed.

Lemma POST_table now request t :
  table (POST now request t) = t
  \/ exists b, request = Some b /\ accepted b = true
               /\ table (POST now request t) = t ++ [newRow now b t].
Proof.
  destruct request as [b|]; [|left; reflexivity].
  destruct (accepted b) eqn:Hacc.
  - right. exists b. rewrite POST_accepted by assumption. auto.
  - left. unfold accepted in Hacc.
    destruct (strictEq (CreateReq.currentUserRole b) "admin") eqn:Ha;
      [|rewrite POST_forbidden by assumption; reflexivity].
    destruct (truthy (CreateReq.title b) && truthy (CreateReq.message b)
              && truthy (CreateReq.role b)) eqn:Hf.
    + rewrite POST_badRole; try assumption; [reflexivity|].
      apply andb_true_iff in Hf. destruct Hf as [Hf H3].
      apply andb_true_iff in Hf. destruct Hf as [H1 H2].
      rewrite H1, H2, H3 in Hacc. exact Hacc.
    + rewrite POST_incomplete by assumption. reflexivity.
Qed.

(** ** POST /api/notifications/[id]/dismiss *)

Lemma noId_false v : noId v = false <-> exists k, v = Some k /\ k <> 0.
Proof.
  destruct v as [k|]; simpl.
  - rewrite Z.eqb_neq. split.
    + intros H. exists k. auto.
    + intros [k' [[= <-] H]]. exact H.
  - split; [discriminate|]. intros [k [H _]]. discriminate.
Qed.

Lemma POST_dismiss_noId p request t :
  noId (notificationIdOf p) = true ->
  POST_dismiss p request t
  = (mkResponse 400 (Failure "Invalid notification ID" None), t, []).
Proof.
  intros H. unfold POST_dismiss, tryCatch. rewrite H. reflexivity.
Qed.

Lemma POST_dismiss_nobody p t :
  noId (notificationIdOf p) = false ->
  POST_dismiss p None t
  = (mkResponse 500 (Failure "Failed to dismiss notification"
                       (Some "Unexpected end of JSON input")), t, []).
Proof.
  intros H. unfold POST_dismiss, tryCatch. rewrite H. reflexivity.
Qed.

Lemma POST_dismiss_nouser p b t :
  noId (notificationIdOf p) = false ->
  truthy (DismissReq.userId b) = false ->
  POST_dismiss p (Some b) t
  = (mkResponse 400 (Failure "Missing required field: userId" None), t, []).
Proof.
  intros H Hu. unfold POST_dismiss, tryCatch, requestJson, bind, ret.
  rewrite H, Hu. reflexivity.
Qed.

(** What the route does once the id and the user are accepted. *)
Lemma POST_dismiss_lookup p b t k :
  notificationIdOf p = Some k -> k <> 0 ->
  truthy (DismissReq.userId b) = true ->
  POST_dismiss p (Some b) t
  = match filter (hasId k) t with
    | [] => (mkResponse 404 (Failure "Notification not found" None), t, [SSelect])
    | n :: _ =>
        if includes (dismissedUsers n) (str (DismissReq.userId b))
        then (mkResponse 200 (AlreadyDismissed n), t, [SSelect])
        else
          let d := dismissedUsers n ++ [str (DismissReq.userId b)] in
          let t' := map (updateRow k d) t in
          (mkResponse 200 (Dismissed (hd_error (filter (hasId k) t'))), t',
           [SSelect; SUpdate k d])
    end.
Proof.
  intros Hp Hk Hu.
  unfold POST_dismiss, tryCatch, requestJson, bind, ret, selectById,
    updateDismissed.
  rewrite Hp, or0_Some. cbn [noId]. apply Z.eqb_neq in Hk. rewrite Hk, Hu.
  cbn [negb].
  destruct (filter (hasId k) t) as [|n rest]; [reflexivity|].
  cbn [firstn hd_error].
  destruct (includes (dismissedUsers n) (str (DismissReq.userId b)));
    reflexivity.
Qed.

Lemma filter_hasId_nil k t :
  filter (hasId k) t = [] <-> forall n, In n t -> id n <> k.
Proof.
  split.
  - intros H n Hn Hid.
    assert (In n (filter (hasId k) t)) as Hin
      by (apply filter_In; split; [exact Hn|apply Z.eqb_eq, Hid]).
    rewrite H in Hin. exact Hin.
  - intros H. destruct (filter (hasId k) t) as [|n rest] eqn:Hf; [reflexivity|].
    assert (In n (filter (hasId k) t)) as Hin by (rewrite Hf; left; reflexivity).
    apply filter_In in Hin. destruct Hin as [Hn Hid].
    apply Z.eqb_eq in Hid. destruct (H n Hn Hid).
Qed.

Lemma filter_hasId_head k t n rest :
  filter (hasId k) t = n :: rest -> In n t /\ id n = k.
Proof.
  intros Hf.
  assert (In n (filter (hasId k) t)) as Hin by (rewrite Hf; left; reflexivity).
  apply filter_In in Hin. destruct Hin as [Hn Hid].
  apply Z.eqb_eq in Hid. auto.
Qed.

Lemma updateRow_id k d n : id (updateRow k d n) = id n.
Proof. unfold updateRow. destruct (hasId k n); reflexivity. Qed.

Lemma map_id_updateRow k d t : map id (map (updateRow k d) t) = map id t.
Proof.
  rewrite map_map. apply map_ext. intros n. apply updateRow_id.
Qed.

Lemma filter_hasId_updateRow k d t :
  filter (hasId k) (map (updateRow k d) t)
  = map (setDismissed d) (filter (hasId k) t).
Proof.
  induction t as [|x t IH]; simpl; [reflexivity|].
  unfold updateRow at 1 2. unfold hasId at 1 3.
  destruct (hasId k x) eqn:Hx; unfold hasId in Hx; simpl; rewrite Hx, IH;
    reflexivity.
Qed.

(** The tables a dismissal can leave behind. *)
Lemma POST_dismiss_table p request t :
  table (POST_dismiss p request t) = t
  \/ exists k u n,
       In n t /\ id n = k /\ ~ In u (dismissedUsers n)
       /\ table (POST_dismiss p request t)
          = map (updateRow k (dismissedUsers n ++ [u])) t.
Proof.
  destruct (noId (notificationIdOf p)) eqn:Hno;
    [left; rewrite POST_dismiss_noId by assumption; reflexivity|].
  destruct request as [b|];
    [|left; rewrite POST_dismiss_nobody by assumption; reflexivity].
  destruct (truthy (DismissReq.userId b)) eqn:Hu;
    [|left; rewrite POST_dismiss_nouser by assumption; reflexivity].
  apply noId_false in Hno. destruct Hno as [k [Hp Hk]].
  rewrite (POST_dismiss_lookup p b t k Hp Hk Hu).
  destruct (filter (hasId k) t) as [|n rest] eqn:Hf; [left; reflexivity|].
  destruct (includes (dismissedUsers n) (str (DismissReq.userId b))) eqn:Hin;
    [left; reflexivity|].
  right. exists k, (str (DismissReq.userId b)), n.
  apply filter_hasId_head in Hf. destruct Hf as [Hn Hid].
  apply includes_notIn in Hin. auto.
Qed.

Lemma GET_table E userId userRole t : table (GET E userId userRole t) = t.
Proof.
  unfold GET, tryCatch.
  destruct (negb (truthy userId) || negb (truthy userRole)); reflexivity.
Qed.

(** ** The primary key and the [dismissed] arrays *)

Lemma keyed_unique t n n' :
  keyed t -> In n t -> In n' t -> id n = id n' -> n = n'.
Proof.
  unfold keyed. induction t as [|x t IH]; simpl; intros Hk Hn Hn' Hid;
    [contradiction|].
  inversion Hk as [|? ? Hx Hk']; subst.
  destruct Hn as [<-|Hn], Hn' as [<-|Hn'].
  - reflexivity.
  - destruct Hx. rewrite Hid. apply in_map, Hn'.
  - destruct Hx. rewrite <- Hid. apply in_map, Hn.
  - apply IH; assumption.
Qed.

Lemma keyed_updateRow k d t : keyed t -> keyed (map (updateRow k d) t).
Proof. unfold keyed. rewrite map_id_updateRow. auto. Qed.

Lemma keyed_newRow now b t : keyed t -> keyed (t ++ [newRow now b t]).
Proof.
  unfold keyed. intros H. rewrite map_app. simpl.
  apply NoDup_rev in H. rewrite <- (rev_involutive (map id t ++ [nextIdOf t])).
  apply NoDup_rev. rewrite rev_app_distr. simpl.
  constructor; [|exact H].
  rewrite <- in_rev. intros Hin. apply in_map_iff in Hin.
  destruct Hin as [n [Hid Hn]].
  pose proof (nextIdOf_above t n Hn). lia.
Qed.

Lemma NoDup_snoc (l : list string) x : NoDup l -> ~ In x l -> NoDup (l ++ [x]).
Proof.
  intros H Hx. rewrite <- (rev_involutive (l ++ [x])).
  apply NoDup_rev. rewrite rev_app_distr. simpl.
  constructor; [rewrite <- in_rev; exact Hx|apply NoDup_rev, H].
Qed.

Lemma noDuplicates_updateRow k u n t :
  noDuplicates t -> In n t -> ~ In u (dismissedUsers n) ->
  noDuplicates (map (updateRow k (dismissedUsers n ++ [u])) t).
Proof.
  intros Ht Hn Hu n' Hn'. apply in_map_iff in Hn'.
  destruct Hn' as [x [<- Hx]]. unfold updateRow.
  destruct (hasId k x).
  - simpl. apply NoDup_snoc; auto.
  - auto.
Qed.

Lemma noDuplicates_newRow now b t :
  noDuplicates t -> noDuplicates (t ++ [newRow now b t]).
Proof.
  intros Ht n Hn. apply in_app_iff in Hn. destruct Hn as [Hn|[<-|[]]].
  - auto.
  - simpl. constructor.
Qed.

Lemma grows_refl t : grows t t.
Proof.
  intros n Hn. exists n. repeat split; auto. apply incl_refl.
Qed.

Lemma grows_trans t1 t2 t3 : grows t1 t2 -> grows t2 t3 -> grows t1 t3.
Proof.
  intros H12 H23 n Hn.
  destruct (H12 n Hn) as [n2 [Hn2 [Hid2 [Hi2 Hl2]]]].
  destruct (H23 n2 Hn2) as [n3 [Hn3 [Hid3 [Hi3 Hl3]]]].
  exists n3. repeat split.
  - exact Hn3.
  - congruence.
  - eapply incl_tran; eassumption.
  - lia.
Qed.

Lemma grows_app t l : grows t (t ++ l).
Proof.
  intros n Hn. exists n. repeat split; auto.
  - apply in_or_app. auto.
  - apply incl_refl.
Qed.

Lemma grows_updateRow k u n t :
  keyed t -> In n t -> id n = k ->
  grows t (map (updateRow k (dismissedUsers n ++ [u])) t).
Proof.
  intros Hk Hn Hid x Hx.
  exists (updateRow k (dismissedUsers n ++ [u]) x).
  split; [apply in_map, Hx|]. split; [apply updateRow_id|].
  unfold updateRow. destruct (hasId k x) eqn:Hh.
  - unfold hasId in Hh. apply Z.eqb_eq in Hh.
    assert (x = n) as -> by (apply (keyed_unique t); congruence).
    change (dismissedUsers (setDismissed (dismissedUsers n ++ [u]) n))
      with (dismissedUsers n ++ [u]).
    split; [apply incl_appl, incl_refl|].
    rewrite length_app. simpl. lia.
  - split; [apply incl_refl|lia].
Qed.

(** Every route keeps the primary key and the [dismissed] arrays sound. *)
Lemma route_invariant E c t :
  keyed t -> noDuplicates t ->
  keyed (table (route E c t)) /\ noDuplicates (table (route E c t))
  /\ grows t (table (route E c t)).
Proof.
  intros Hk Hd. destruct c as [u r|now request|p request]; simpl.
  - rewrite GET_table. auto using grows_refl.
  - destruct (POST_table now request t) as [->|[b [_ [_ ->]]]].
    + auto using grows_refl.
    + auto using keyed_newRow, noDuplicates_newRow, grows_app.
  - destruct (POST_dismiss_table p request t)
      as [->|[k [u [n [Hn [Hid [Hu ->]]]]]]].
    + auto using grows_refl.
    + auto using keyed_updateRow, noDuplicates_updateRow, grows_updateRow.
Qed.

Lemma run_invariant E cs t :
  keyed t -> noDuplicates t ->
  keyed (run E cs t) /\ noDuplicates (run E cs t) /\ grows t (run E cs t).
Proof.
  revert t. induction cs as [|c cs IH]; simpl; intros t Hk Hd.
  - auto using grows_refl.
  - destruct (route_invariant E c t Hk Hd) as [Hk1 [Hd1 Hg1]].
    destruct (IH _ Hk1 Hd1) as [Hk2 [Hd2 Hg2]].
    eauto using grows_trans.
Qed.

(** ** The listing *)

(** C1.  For a viewer with a non-empty user id [u] and role [r], the listing
    answers 200, and a notification is in it if and only if it is in the
    store, its role is [r] or ["all"], its [userId] is null or [u], and the
    array stored in its [dismissed] column, if it is one, does not hold
    [u]. *)
Theorem listVisible_iff E u r t n :
  u <> "" -> r <> "" ->
  status (response (GET E (Some u) (Some r) t)) = 200
  /\ (In n (listVisible E u r t) <->
      In n t
      /\ (role n = r \/ role n = "all")
      /\ (userId n = None \/ userId n = Some u)
      /\ (forall l, dismissed n = JArray l -> ~ In u l)).
Proof.
  intros Hu Hr. split.
  - rewrite GET_listing by assumption. reflexivity.
  - rewrite In_listVisible by assumption. rewrite visibleTo_iff.
    assert (~ In u (dismissedUsers n)
            <-> forall l, dismissed n = JArray l -> ~ In u l) as Hcol.
    { unfold dismissedUsers. destruct (dismissed n) as [l0|].
      - split; [intros H l [= <-]; exact H|intros H; exact (H l0 eq_refl)].
      - split; [intros _ l Hl; discriminate|intros _ []]. }
    tauto.
Qed.

Lemma listVisible_iff_witness :
  In securityAlert (listVisible stableEngine "user-1" "admin" seed)
  /\ ~ In securityAlert (listVisible stableEngine "user-2" "admin" seed)
  /\ ~ In (setDismissed ["user-1"] welcome)
         (listVisible stableEngine "user-1" "admin"
            [setDismissed ["user-1"] welcome])
  /\ In (setDismissed ["user-1"] welcome)
        (listVisible stableEngine "user-2" "editor"
           [setDismissed ["user-1"] welcome]).
Proof.
  split; [|split; [|split]].
  - apply (listVisible_iff stableEngine "user-1" "admin" seed securityAlert);
      [discriminate|discriminate|].
    split; [simpl; auto|]. split; [left; reflexivity|].
    split; [right; reflexivity|].
    intros l [= <-] [].
  - intros H.
    apply (listVisible_iff stableEngine "user-2" "admin" seed securityAlert)
      in H; [|discriminate|discriminate].
    destruct H as [_ [_ [[H|H] _]]]; discriminate.
  - intros H.
    apply (listVisible_iff stableEngine "user-1" "admin"
             [setDismissed ["user-1"] welcome]
             (setDismissed ["user-1"] welcome))
      in H; [|discriminate|discriminate].
    destruct H as [_ [_ [_ H]]].
    apply (H ["user-1"] eq_refl). left. reflexivity.
  - apply (listVisible_iff stableEngine "user-2" "editor"
             [setDismissed ["user-1"] welcome]
             (setDismissed ["user-1"] welcome));
      [discriminate|discriminate|].
    split; [left; reflexivity|]. split; [right; reflexivity|].
    split; [left; reflexivity|].
    intros l [= <-] [H|[]]. discriminate.
Defined.

(** ** Dismissal *)

(** C2.  Dismissing an existing notification twice: both calls answer 200,
    the second answers with the record as the store holds it (which lists
    the user), leaves the store as the first call left it, and sends no
    statement that writes. *)
Theorem dismiss_twice seg k u t n :
  notificationIdOf (Some seg) = Some k -> k <> 0 -> u <> "" ->
  In n t -> id n = k ->
  status (response (dismiss seg u t)) = 200
  /\ status (response (dismiss seg u (table (dismiss seg u t)))) = 200
  /\ (exists cur,
        payload (response (dismiss seg u (table (dismiss seg u t))))
        = AlreadyDismissed cur
        /\ In cur (table (dismiss seg u t)) /\ id cur = k
        /\ In u (dismissedUsers cur))
  /\ table (dismiss seg u (table (dismiss seg u t))) = table (dismiss seg u t)
  /\ mutations (trace (dismiss seg u (table (dismiss seg u t)))) = 0%nat.
Proof.
  intros Hp Hk Hu Hn Hid. apply truthy_Some in Hu.
  unfold dismiss.
  rewrite !(fun t => POST_dismiss_lookup (Some seg) (DismissReq.mk (Some u)) t k
                       Hp Hk Hu).
  cbn [DismissReq.userId str].
  destruct (filter (hasId k) t) as [|n0 rest] eqn:Hf.
  { destruct (proj1 (filter_hasId_nil k t) Hf n Hn Hid). }
  destruct (filter_hasId_head _ _ _ _ Hf) as [Hn0 Hid0].
  destruct (includes (dismissedUsers n0) u) eqn:Hinc.
  - cbn [table response trace fst snd status].
    rewrite Hf, Hinc. cbn [table response trace fst snd status payload].
    repeat split; try reflexivity.
    exists n0. apply includes_In in Hinc. auto.
  - cbn zeta. cbn [table response trace fst snd status].
    rewrite filter_hasId_updateRow, Hf. cbn [map].
    assert (includes (dismissedUsers (setDismissed (dismissedUsers n0 ++ [u]) n0)) u
            = true) as Hnow.
    { apply includes_In. simpl. apply in_or_app. right. left. reflexivity. }
    rewrite Hnow. cbn [table response trace fst snd status payload].
    repeat split; try reflexivity.
    exists (setDismissed (dismissedUsers n0 ++ [u]) n0).
    split; [reflexivity|]. split; [|split].
    + apply in_map_iff. exists n0. split; [|exact Hn0].
      unfold updateRow, hasId. rewrite Hid0, Z.eqb_refl. reflexivity.
    + exact Hid0.
    + apply includes_In, Hnow.
Qed.

Lemma dismiss_twice_witness :
  table (dismiss "3" "user-1" (table (dismiss "3" "user-1" seed)))
  = table (dismiss "3" "user-1" seed)
  /\ mutations (trace (dismiss "3" "user-1" (table (dismiss "3" "user-1" seed))))
     = 0%nat.
Proof.
  apply (dismiss_twice "3" 3 "user-1" seed welcome).
  - reflexivity.
  - discriminate.
  - discriminate.
  - simpl. auto.
  - reflexivity.
Defined.

(** C3, as the claim states it, fails on the id 0 and on the empty user
    id: in both cases no notification exists under the id, and the route
    answers [InvalidInput], not [NotFound]. *)
Lemma dismiss_zero_is_not_NotFound :
  existsb (hasId 0) seed = false
  /\ notificationIdOf (Some "0") = Some 0
  /\ dismiss "0" "user-1" seed
     = (mkResponse 400 (Failure "Invalid notification ID" None), seed, [])
  /\ errorKind (response (dismiss "0" "user-1" seed)) <> Some NotFound
  /\ existsb (hasId 999) seed = false
  /\ notificationIdOf (Some "999") = Some 999
  /\ dismiss "999" "" seed
     = (mkResponse 400 (Failure "Missing required field: userId" None), seed, [])
  /\ errorKind (response (dismiss "999" "" seed)) <> Some NotFound.
Proof.
  repeat split; try reflexivity; discriminate.
Qed.

(** C3, amended.  When the store holds no notification under the id the
    path segment reads as, a dismissal leaves the store, and with it every
    listing, as it was.  It answers [NotFound], after a single read, when
    the segment reads as a nonzero id and the user id is not empty; it
    answers [InvalidInput], without reading the store, when the segment
    reads as no number or as 0, and when the user id is empty. *)
Theorem dismiss_missing_is_NotFound seg u t :
  (forall k n, notificationIdOf (Some seg) = Some k -> In n t -> id n <> k) ->
  (forall k, notificationIdOf (Some seg) = Some k -> k <> 0 -> u <> "" ->
     dismiss seg u t
     = (mkResponse 404 (Failure "Notification not found" None), t, [SSelect])
     /\ errorKind (response (dismiss seg u t)) = Some NotFound)
  /\ (notificationIdOf (Some seg) = None \/ notificationIdOf (Some seg) = Some 0 ->
      dismiss seg u t
      = (mkResponse 400 (Failure "Invalid notification ID" None), t, [])
      /\ errorKind (response (dismiss seg u t)) = Some InvalidInput)
  /\ (forall k, notificationIdOf (Some seg) = Some k -> k <> 0 -> u = "" ->
       dismiss seg u t
       = (mkResponse 400 (Failure "Missing required field: userId" None), t, [])
       /\ errorKind (response (dismiss seg u t)) = Some InvalidInput)
  /\ table (dismiss seg u t) = t
  /\ (forall E v r,
        listVisible E v r (table (dismiss seg u t)) = listVisible E v r t).
Proof.
  intros Hno.
  assert (forall k, notificationIdOf (Some seg) = Some k -> k <> 0 -> u <> "" ->
            dismiss seg u t
            = (mkResponse 404 (Failure "Notification not found" None), t,
               [SSelect])) as H404.
  { intros k Hp Hk Hu. apply truthy_Some in Hu. unfold dismiss.
    rewrite (POST_dismiss_lookup (Some seg) (DismissReq.mk (Some u)) t k Hp Hk Hu).
    assert (filter (hasId k) t = []) as ->
      by (apply filter_hasId_nil; intros n Hn; exact (Hno k n Hp Hn)).
    reflexivity. }
  assert (notificationIdOf (Some seg) = None
          \/ notificationIdOf (Some seg) = Some 0 ->
          dismiss seg u t
          = (mkResponse 400 (Failure "Invalid notification ID" None), t, []))
    as H400.
  { intros H. apply POST_dismiss_noId. destruct H as [-> | ->]; reflexivity. }
  assert (forall k, notificationIdOf (Some seg) = Some k -> k <> 0 -> u = "" ->
            dismiss seg u t
            = (mkResponse 400 (Failure "Missing required field: userId" None),
               t, [])) as Huser.
  { intros k Hp Hk ->. apply POST_dismiss_nouser; [|reflexivity].
    apply noId_false. exists k. auto. }
  assert (table (dismiss seg u t) = t) as Htable.
  { destruct (notificationIdOf (Some seg)) as [k|] eqn:Hp;
      [|rewrite H400 by auto; reflexivity].
    destruct (Z.eq_dec k 0) as [->|Hk]; [rewrite H400 by auto; reflexivity|].
    destruct (string_dec u "") as [Hu|Hu].
    - rewrite (Huser k eq_refl Hk Hu). reflexivity.
    - rewrite (H404 k eq_refl Hk Hu). reflexivity. }
  split; [|split; [|split; [|split]]].
  - intros k Hp Hk Hu. rewrite (H404 k Hp Hk Hu). split; reflexivity.
  - intros H. rewrite (H400 H). split; reflexivity.
  - intros k Hp Hk Hu. rewrite (Huser k Hp Hk Hu). split; reflexivity.
  - exact Htable.
  - intros E v r. rewrite Htable. reflexivity.
Qed.

Lemma dismiss_missing_is_NotFound_witness :
  dismiss "999" "u1" seed
  = (mkResponse 404 (Failure "Notification not found" None), seed, [SSelect])
  /\ dismiss "0" "u1" seed
     = (mkResponse 400 (Failure "Invalid notification ID" None), seed, [])
  /\ dismiss "abc" "u1" seed
     = (mkResponse 400 (Failure "Invalid notification ID" None), seed, [])
  /\ dismiss "999" "" seed
     = (mkResponse 400 (Failure "Missing required field: userId" None), seed, []).
Proof.
  assert (forall n, In n seed -> id n <> 999 /\ id n <> 0) as Hseed.
  { intros n Hn. simpl in Hn.
    destruct Hn as [<-|[<-|[<-|[<-|[<-|[]]]]]]; split; discriminate. }
  split; [|split; [|split]].
  - apply (dismiss_missing_is_NotFound "999" "u1" seed) with (k := 999).
    + intros k n [= <-] Hn. apply Hseed, Hn.
    + reflexivity.
    + discriminate.
    + discriminate.
  - apply (dismiss_missing_is_NotFound "0" "u1" seed).
    + intros k n [= <-] Hn. apply Hseed, Hn.
    + right. reflexivity.
  - apply (dismiss_missing_is_NotFound "abc" "u1" seed).
    + intros k n H. discriminate H.
    + left. reflexivity.
  - apply (dismiss_missing_is_NotFound "999" "" seed) with (k := 999).
    + intros k n [= <-] Hn. apply Hseed, Hn.
    + reflexivity.
    + discriminate.
    + reflexivity.
Defined.

(** ** Creation *)

(** C4.  A creation request whose [currentUserRole] is not ["admin"] is
    answered [Forbidden] whatever its other fields are; the store is not
    touched. *)
Theorem create_forbidden now title message role userId currentUserRole t :
  strictEq currentUserRole "admin" = false ->
  POST now (Some (CreateReq.mk title message role userId currentUserRole)) t
  = (mkResponse 403
       (Failure "Unauthorized: Only admins can create notifications" None), t, [])
  /\ errorKind (response
       (POST now (Some (CreateReq.mk title message role userId currentUserRole)) t))
     = Some Forbidden.
Proof.
  intros H. rewrite POST_forbidden by exact H. split; reflexivity.
Qed.

Lemma create_forbidden_witness :
  table (POST 0 (Some (CreateReq.mk (Some "t") (Some "m") (Some "all") None
                         (Some "user"))) seed) = seed.
Proof.
  rewrite (proj1 (create_forbidden 0 (Some "t") (Some "m") (Some "all") None
                    (Some "user") seed eq_refl)).
  reflexivity.
Defined.

Lemma POST_status_201 now request t :
  status (response (POST now request t)) = 201 ->
  exists b, request = Some b /\ accepted b = true.
Proof.
  intros H. destruct request as [b|]; [|discriminate].
  exists b. split; [reflexivity|].
  destruct (accepted b) eqn:Hacc; [reflexivity|]. exfalso.
  unfold accepted in Hacc.
  destruct (strictEq (CreateReq.currentUserRole b) "admin") eqn:Ha;
    [|rewrite POST_forbidden in H by assumption; discriminate].
  destruct (truthy (CreateReq.title b) && truthy (CreateReq.message b)
            && truthy (CreateReq.role b)) eqn:Hf.
  - rewrite POST_badRole in H; try assumption; [discriminate|].
    apply andb_true_iff in Hf. destruct Hf as [Hf H3].
    apply andb_true_iff in Hf. destruct Hf as [H1 H2].
    rewrite H1, H2, H3 in Hacc. exact Hacc.
  - rewrite POST_incomplete in H by assumption. discriminate.
Qed.

Lemma nextIdOf_nil : nextIdOf [] = 1.
Proof. reflexivity. Qed.

(** C5.  A creation answered 201 returns the record it appended to the
    store; its id is 1 on the empty store and the highest id of the store
    plus 1 otherwise.  Two creations in a row on the empty store get the ids
    1 and 2. *)
Theorem create_assigns_next_id :
  (forall now request t,
      status (response (POST now request t)) = 201 ->
      exists n,
        payload (response (POST now request t)) = Created (Some n)
        /\ table (POST now request t) = t ++ [n]
        /\ (t = [] -> id n = 1)
        /\ (forall m, highest t m -> id n = m + 1))
  /\ (forall now1 now2 request1 request2,
        status (response (POST now1 request1 [])) = 201 ->
        status (response (POST now2 request2 (table (POST now1 request1 []))))
        = 201 ->
        exists n1 n2,
          payload (response (POST now1 request1 [])) = Created (Some n1)
          /\ payload (response
                        (POST now2 request2 (table (POST now1 request1 []))))
             = Created (Some n2)
          /\ id n1 = 1 /\ id n2 = id n1 + 1).
Proof.
  split.
  - intros now request t H.
    destruct (POST_status_201 _ _ _ H) as [b [-> Hacc]].
    rewrite POST_accepted by assumption.
    exists (newRow now b t). repeat split.
    + intros ->. reflexivity.
    + intros m Hm. apply nextIdOf_highest, Hm.
  - intros now1 now2 request1 request2 H1 H2.
    destruct (POST_status_201 _ _ _ H1) as [b1 [-> Hacc1]].
    destruct (POST_status_201 _ _ _ H2) as [b2 [-> Hacc2]].
    rewrite !POST_accepted by assumption.
    cbn [table response fst snd payload app].
    rewrite ?POST_accepted by assumption.
    exists (newRow now1 b1 []), (newRow now2 b2 [newRow now1 b1 []]).
    repeat split.
Qed.

Lemma create_assigns_next_id_witness :
  exists n,
    payload (response
      (POST 0 (Some (CreateReq.mk (Some "t") (Some "m") (Some "all") None
                       (Some "admin"))) seed)) = Created (Some n)
    /\ id n = 6.
Proof.
  destruct (proj1 create_assigns_next_id 0
              (Some (CreateReq.mk (Some "t") (Some "m") (Some "all") None
                       (Some "admin"))) seed eq_refl)
    as [n [Hp [_ [_ Hid]]]].
  exists n. split; [exact Hp|].
  apply (Hid 5). split.
  - simpl. auto 10.
  - intros x Hx. simpl in Hx.
    destruct Hx as [<-|[<-|[<-|[<-|[<-|[]]]]]]; simpl; lia.
Defined.

Lemma includes_validRoles s :
  includes validRoles s = true
  <-> s = "admin" \/ s = "editor" \/ s = "user" \/ s = "all".
Proof.
  rewrite includes_In. simpl. intuition congruence.
Qed.

(** C6.  A creation request of an admin is answered [InvalidInput] exactly
    when its title, message or role is missing or empty, or its role is
    none of ["admin"], ["editor"], ["user"] and ["all"]; the store is then
    left as it was and no statement that writes was sent. *)
Theorem create_invalid_input now title message role userId t :
  (errorKind (response
     (POST now (Some (CreateReq.mk title message role userId (Some "admin"))) t))
   = Some InvalidInput
   <-> missing title \/ missing message \/ missing role
       \/ (role <> Some "admin" /\ role <> Some "editor"
           /\ role <> Some "user" /\ role <> Some "all"))
  /\ (errorKind (response
        (POST now (Some (CreateReq.mk title message role userId (Some "admin"))) t))
      = Some InvalidInput ->
      table (POST now (Some (CreateReq.mk title message role userId (Some "admin"))) t)
      = t
      /\ mutations (trace
           (POST now (Some (CreateReq.mk title message role userId (Some "admin"))) t))
         = 0%nat).
Proof.
  set (b := CreateReq.mk title message role userId (Some "admin")).
  assert (missing role
          \/ (role <> Some "admin" /\ role <> Some "editor"
              /\ role <> Some "user" /\ role <> Some "all")
          <-> truthy role = false \/ includes validRoles (str role) = false)
    as Hrole.
  { rewrite <- truthy_false.
    destruct (truthy role) eqn:Htr; [|tauto].
    destruct role as [s|]; [|discriminate]. cbn [str].
    destruct (includes validRoles s) eqn:Hin.
    - apply includes_validRoles in Hin.
      split; [|intros [H|H]; discriminate].
      intros [H|[H1 [H2 [H3 H4]]]]; [discriminate|].
      destruct Hin as [-> | [-> | [-> | ->]]]; congruence.
    - split; [auto|]. intros _. right.
      assert (~ (s = "admin" \/ s = "editor" \/ s = "user" \/ s = "all")) as Hn
        by (rewrite <- includes_validRoles; congruence).
      repeat split; intros [= ->]; apply Hn; auto. }
  assert (missing title \/ missing message \/ missing role
          \/ (role <> Some "admin" /\ role <> Some "editor"
              /\ role <> Some "user" /\ role <> Some "all")
          <-> truthy title = false \/ truthy message = false
              \/ truthy role = false
              \/ includes validRoles (str role) = false) as Hall.
  { rewrite <- !truthy_false in *. tauto. }
  rewrite Hall. clear Hrole Hall.
  destruct (truthy title && truthy message && truthy role) eqn:Hf.
  - destruct (includes validRoles (str role)) eqn:Hr.
    + assert (accepted b = true) as Hacc.
      { unfold accepted, b.
        cbn [CreateReq.currentUserRole CreateReq.title CreateReq.message
             CreateReq.role].
        change (strictEq (Some "admin") "admin") with true. cbn [andb].
        rewrite Hf, Hr. reflexivity. }
      rewrite POST_accepted by exact Hacc.
      apply andb_true_iff in Hf. destruct Hf as [Hf H3].
      apply andb_true_iff in Hf. destruct Hf as [H1 H2].
      split; [split|]; try discriminate.
      intros [H|[H|[H|H]]]; congruence.
    + rewrite (POST_badRole now b t eq_refl Hf Hr).
      split; [split|]; auto.
  - rewrite (POST_incomplete now b t eq_refl Hf).
    split; [split|]; auto.
    intros _.
    destruct (truthy title); [|auto].
    destruct (truthy message); [|auto].
    destruct (truthy role); [discriminate|auto].
Qed.

Lemma create_invalid_input_witness :
  errorKind (response
    (POST 0 (Some (CreateReq.mk (Some "t") (Some "m") (Some "guest") None
                     (Some "admin"))) seed))
  = Some InvalidInput
  /\ errorKind (response
       (POST 0 (Some (CreateReq.mk (Some "t") (Some "m") (Some "admin") None
                        (Some "admin"))) seed))
     <> Some InvalidInput
  /\ errorKind (response
       (POST 0 (Some (CreateReq.mk (Some "t") (Some "m") (Some "all") None
                        (Some "admin"))) seed))
     <> Some InvalidInput.
Proof.
  split; [|split].
  - apply (proj1 (create_invalid_input 0 (Some "t") (Some "m") (Some "guest") None
                    seed)).
    right. right. right. repeat split; discriminate.
  - intros H.
    apply (proj1 (create_invalid_input 0 (Some "t") (Some "m") (Some "admin") None
                    seed)) in H.
    destruct H as [[H|H]|[[H|H]|[[H|H]|[H _]]]];
      try discriminate H. apply H. reflexivity.
  - intros H.
    apply (proj1 (create_invalid_input 0 (Some "t") (Some "m") (Some "all") None
                    seed)) in H.
    destruct H as [[H|H]|[[H|H]|[[H|H]|[_ [_ [_ H]]]]]];
      try discriminate H. apply H. reflexivity.
Defined.

(** ** Order of a listing *)




(** Stability is not part of what [ORDER BY createdAt DESC] promises: a
    sort that meets the contract of [Engine] may hand the rows of one
    instant back in another order, and the listing follows it. *)
Lemma ties_follow_the_engine :
  listVisible reversingEngine "user-1" "user" twins = rev twins
  /\ ~ keepsTies reversingEngine.
Proof.
  split; [reflexivity|].
  intros H. specialize (H twins 1000). vm_compute in H. discriminate.
Qed.



(** ** The [dismissed] arrays over time *)

Lemma keyed_seed : keyed seed.
Proof.
  unfold keyed. simpl.
  repeat (constructor; [simpl; intros H; repeat destruct H as [H|H]; try discriminate; exact H|]).
  constructor.
Qed.

Lemma noDuplicates_seed : noDuplicates seed.
Proof.
  intros n Hn. simpl in Hn.
  destruct Hn as [<-|[<-|[<-|[<-|[<-|[]]]]]]; constructor.
Qed.

(** *** The typed route is the untyped one on strings *)

Lemma untyped_truthy v : Untyped.truthyValue (untypedValue v) = truthy v.
Proof. destruct v; reflexivity. Qed.

Lemma untyped_includes l u :
  Untyped.includesValue (map Untyped.VString l) (Untyped.VString u)
  = includes l u.
Proof.
  unfold Untyped.includesValue, includes.
  induction l as [|x l IH]; simpl; [reflexivity|]. rewrite IH. reflexivity.
Qed.

Lemma untyped_dismissedUsers n :
  Untyped.dismissedUsers (untyped n) = map Untyped.VString (dismissedUsers n).
Proof.
  unfold Untyped.dismissedUsers, dismissedUsers, untyped. simpl.
  destruct (dismissed n); reflexivity.
Qed.

Lemma untyped_filter k t :
  filter (Untyped.hasId k) (map untyped t) = map untyped (filter (hasId k) t).
Proof.
  induction t as [|x t IH]; simpl; [reflexivity|].
  unfold Untyped.hasId at 1, hasId at 1. simpl.
  destruct (id x =? k); simpl; rewrite IH; reflexivity.
Qed.

Lemma untyped_updateRow k d t :
  map (Untyped.updateRow k (map Untyped.VString d)) (map untyped t)
  = map untyped (map (updateRow k d) t).
Proof.
  rewrite !map_map. apply map_ext. intros n.
  unfold Untyped.updateRow, updateRow, Untyped.hasId, hasId. simpl.
  destruct (id n =? k); reflexivity.
Qed.

(** On a body whose [userId] is a string, null or absent, and a store whose
    [dismissed] arrays hold strings, the untyped route answers with the
    status of the typed one, leaves the store the typed one leaves, and
    writes as often. *)
Lemma POST_dismiss_untyped p request t :
  Untyped.status
    (fst (fst (Untyped.POST_dismiss p
                 (option_map (fun b => untypedValue (DismissReq.userId b)) request)
                 (map untyped t))))
  = status (response (POST_dismiss p request t))
  /\ snd (fst (Untyped.POST_dismiss p
                 (option_map (fun b => untypedValue (DismissReq.userId b)) request)
                 (map untyped t)))
     = map untyped (table (POST_dismiss p request t))
  /\ snd (Untyped.POST_dismiss p
            (option_map (fun b => untypedValue (DismissReq.userId b)) request)
            (map untyped t))
     = mutations (trace (POST_dismiss p request t)).
Proof.
  unfold Untyped.POST_dismiss.
  destruct (noId (notificationIdOf p)) eqn:Hno;
    [rewrite POST_dismiss_noId by assumption; repeat split|].
  destruct request as [b|]; cbn [option_map];
    [|rewrite POST_dismiss_nobody by assumption; repeat split].
  rewrite untyped_truthy.
  destruct (truthy (DismissReq.userId b)) eqn:Hu; cbn [negb];
    [|rewrite POST_dismiss_nouser by assumption; repeat split].
  pose proof Hno as Hno'. apply noId_false in Hno'.
  destruct Hno' as [k [Hp Hk]].
  rewrite (POST_dismiss_lookup p b t k Hp Hk Hu).
  rewrite Hp, or0_Some, untyped_filter.
  destruct (DismissReq.userId b) as [u|] eqn:Hb; [|discriminate].
  cbn [untypedValue str].
  destruct (filter (hasId k) t) as [|n rest]; [repeat split|].
  cbn [map firstn hd_error].
  rewrite untyped_dismissedUsers, untyped_includes.
  destruct (includes (dismissedUsers n) u); [repeat split|].
  cbv zeta.
  change (map Untyped.VString (dismissedUsers n) ++ [Untyped.VString u])
    with (map Untyped.VString (dismissedUsers n) ++ map Untyped.VString [u]).
  rewrite <- map_app, untyped_updateRow. repeat split.
Qed.

(** *** The untyped store over time *)

Lemma untyped_maxId t : Untyped.maxId (map untyped t) = maxId t.
Proof.
  induction t as [|n t IH]; simpl; [reflexivity|]. rewrite IH. reflexivity.
Qed.

Lemma untyped_existsb k t :
  existsb (Untyped.hasId k) (map untyped t) = existsb (hasId k) t.
Proof.
  induction t as [|n t IH]; simpl; [reflexivity|]. rewrite IH. reflexivity.
Qed.

(** The untyped creation is the typed one: same status, same store. *)
Lemma POST_untyped now request t :
  Untyped.POST now request (map untyped t)
  = (status (response (POST now request t)),
     map untyped (table (POST now request t))).
Proof.
  destruct request as [b|]; [|reflexivity]. unfold Untyped.POST.
  destruct (strictEq (CreateReq.currentUserRole b) "admin") eqn:Ha; cbn [negb];
    [|rewrite POST_forbidden by assumption; reflexivity].
  destruct (truthy (CreateReq.title b) && truthy (CreateReq.message b)
            && truthy (CreateReq.role b)) eqn:Hf.
  - pose proof Hf as Hf'.
    apply andb_true_iff in Hf'. destruct Hf' as [Hf' H3].
    apply andb_true_iff in Hf'. destruct Hf' as [H1 H2].
    rewrite H1, H2, H3. cbn [negb orb].
    destruct (includes validRoles (str (CreateReq.role b))) eqn:Hr; cbn [negb];
      [|rewrite POST_badRole by assumption; reflexivity].
    assert (accepted b = true) as Hacc
      by (unfold accepted; rewrite Ha; cbn [andb]; rewrite Hf, Hr; reflexivity).
    rewrite POST_accepted by exact Hacc. cbv zeta.
    rewrite untyped_maxId, untyped_existsb.
    change (or0 (maxId t) + 1) with (nextIdOf t).
    rewrite nextIdOf_fresh. cbn [response table fst snd status].
    rewrite map_app. reflexivity.
  - rewrite POST_incomplete by assumption.
    destruct (truthy (CreateReq.title b)), (truthy (CreateReq.message b)),
      (truthy (CreateReq.role b)); try discriminate; reflexivity.
Qed.

















(** ** The id of a dismissal *)

Lemma POST_dismiss_404 p request t :
  status (response (POST_dismiss p request t)) = 404 ->
  exists k, notificationIdOf p = Some k /\ k <> 0
            /\ forall n, In n t -> id n <> k.
Proof.
  intros H.
  destruct (noId (notificationIdOf p)) eqn:Hno;
    [rewrite POST_dismiss_noId in H by assumption; discriminate|].
  destruct request as [b|];
    [|rewrite POST_dismiss_nobody in H by assumption; discriminate].
  destruct (truthy (DismissReq.userId b)) eqn:Hu;
    [|rewrite POST_dismiss_nouser in H by assumption; discriminate].
  apply noId_false in Hno. destruct Hno as [k [Hp Hk]].
  exists k. split; [exact Hp|]. split; [exact Hk|].
  rewrite (POST_dismiss_lookup p b t k Hp Hk Hu) in H.
  destruct (filter (hasId k) t) as [|n rest] eqn:Hf.
  - apply filter_hasId_nil, Hf.
  - destruct (includes (dismissedUsers n) (str (DismissReq.userId b)));
      discriminate.
Qed.

(** C9.  A dismissal whose id segment is absent, does not read as a number,
    or reads as 0 is answered 400 [InvalidInput] with the store untouched
    and not even read, whatever the body of the request; the segments ["0"]
    and ["abc"] are such.  A dismissal answered 404 [NotFound] had a segment
    that reads as a nonzero id under which the store holds nothing. *)
Theorem dismiss_invalid_id :
  (forall p request t,
      noId (notificationIdOf p) = true ->
      POST_dismiss p request t
      = (mkResponse 400 (Failure "Invalid notification ID" None), t, [])
      /\ errorKind (response (POST_dismiss p request t)) = Some InvalidInput)
  /\ noId (notificationIdOf (Some "0")) = true
  /\ noId (notificationIdOf (Some "abc")) = true
  /\ (forall p request t,
        errorKind (response (POST_dismiss p request t)) = Some NotFound ->
        exists k, notificationIdOf p = Some k /\ k <> 0
                  /\ forall n, In n t -> id n <> k).
Proof.
  split; [|split; [reflexivity|split; [reflexivity|]]].
  - intros p request t H. rewrite POST_dismiss_noId by exact H.
    split; reflexivity.
  - intros p request t H. apply (POST_dismiss_404 p request t).
    unfold errorKind in H.
    destruct (status (response (POST_dismiss p request t)) =? 400);
      [discriminate|].
    destruct (status (response (POST_dismiss p request t)) =? 403);
      [discriminate|].
    destruct (Z.eqb_spec (status (response (POST_dismiss p request t))) 404)
      as [E|_]; [exact E|].
    destruct (status (response (POST_dismiss p request t)) =? 500);
      discriminate.
Qed.

Lemma dismiss_invalid_id_witness :
  POST_dismiss (Some "abc") None seed
  = (mkResponse 400 (Failure "Invalid notification ID" None), seed, []).
Proof.
  apply (proj1 dismiss_invalid_id (Some "abc") None seed). reflexivity.
Defined.

(** ** Broadcast by default *)

(** C10.  An accepted creation request whose [userId] is missing or empty
    stores a notification with a null [userId]: it is in the listing of
    every viewer whose role it addresses. *)
Theorem create_falsy_user_broadcasts now b t E u r :
  accepted b = true -> truthy (CreateReq.userId b) = false ->
  u <> "" -> r <> "" ->
  str (CreateReq.role b) = r \/ str (CreateReq.role b) = "all" ->
  exists n,
    response (POST now (Some b) t) = mkResponse 201 (Created (Some n))
    /\ userId n = None
    /\ In n (table (POST now (Some b) t))
    /\ In n (listVisible E u r (table (POST now (Some b) t))).
Proof.
  intros Hacc Hf Hu Hr Hrole. rewrite POST_accepted by exact Hacc.
  exists (newRow now b t). cbn [response table fst snd].
  assert (userId (newRow now b t) = None) as Hnull
    by (simpl; unfold orNull; rewrite Hf; reflexivity).
  assert (In (newRow now b t) (t ++ [newRow now b t])) as Hin
    by (apply in_or_app; right; left; reflexivity).
  repeat split; try assumption.
  apply In_listVisible; try assumption. split; [exact Hin|].
  apply visibleTo_iff. split; [exact Hrole|]. split; [left; exact Hnull|].
  simpl. auto.
Qed.

Lemma create_falsy_user_broadcasts_witness :
  exists n,
    userId n = None
    /\ In n (listVisible stableEngine "user-3" "user"
               (table (POST 0 (Some (CreateReq.mk (Some "t") (Some "m")
                                       (Some "all") (Some "") (Some "admin")))
                         seed))).
Proof.
  destruct (create_falsy_user_broadcasts 0
              (CreateReq.mk (Some "t") (Some "m") (Some "all") (Some "")
                 (Some "admin"))
              seed stableEngine "user-3" "user")
    as [n [_ [Hnull [_ Hin]]]].
  - reflexivity.
  - reflexivity.
  - discriminate.
  - discriminate.
  - right. reflexivity.
  - exists n. split; assumption.
Defined.

(** ** Reading back an id *)

Ltac digit_step :=
  cbn [NilEmpty.string_of_uint String.append digits Pos.of_uint_acc Pos.of_uint];
  match goal with
  | |- context [digitIn 10 ?c] =>
      let v := eval vm_compute in (digitIn 10 c) in
      change (digitIn 10 c) with v
  end;
  cbv iota beta.

Lemma digits_stops rest acc : stops rest = true -> digits 10 rest acc = acc.
Proof.
  destruct rest as [|c s]; simpl; [reflexivity|].
  destruct (digitIn 10 c); [discriminate|reflexivity].
Qed.

Lemma digits_acc u rest a :
  stops rest = true ->
  digits 10 (NilEmpty.string_of_uint u ++ rest) (Some (Z.pos a))
  = Some (Z.pos (Pos.of_uint_acc u a)).
Proof.
  intros Hrest. revert a.
  induction u as [|u IH|u IH|u IH|u IH|u IH|u IH|u IH|u IH|u IH|u IH];
    intros a; [apply digits_stops, Hrest|..];
    digit_step; rewrite <- IH; do 2 f_equal; lia.
Qed.

Lemma digits_zero u rest :
  stops rest = true ->
  digits 10 (NilEmpty.string_of_uint u ++ rest) (Some 0)
  = Some (Z.of_N (Pos.of_uint u)).
Proof.
  intros Hrest.
  induction u as [|u IH|u IH|u IH|u IH|u IH|u IH|u IH|u IH|u IH|u IH];
    [apply digits_stops, Hrest|..]; digit_step;
    first [exact IH | apply digits_acc, Hrest].
Qed.

Lemma digits_none u rest :
  u <> Decimal.Nil -> stops rest = true ->
  digits 10 (NilEmpty.string_of_uint u ++ rest) None
  = Some (Z.of_N (Pos.of_uint u)).
Proof.
  intros Hu Hrest. destruct u; [destruct Hu; reflexivity|..]; digit_step;
    first [apply digits_zero, Hrest | apply digits_acc, Hrest].
Qed.

Lemma trimStart_blank ws s : isBlank ws = true -> trimStart (ws ++ s) = trimStart s.
Proof.
  induction ws as [|c ws IH]; simpl; [reflexivity|].
  intros H. apply andb_true_iff in H. destruct H as [-> H]. auto.
Qed.

Lemma parseInt_blank ws s : isBlank ws = true -> parseInt (ws ++ s) = parseInt s.
Proof.
  intros H. unfold parseInt. rewrite trimStart_blank by exact H. reflexivity.
Qed.

Lemma parseInt_minus s :
  trimStart s = s -> stripSign s = (1, s) ->
  parseInt (String "-" s) = option_map Z.opp (parseInt s).
Proof.
  intros Ht Hs. unfold parseInt. rewrite Ht, Hs.
  change (trimStart (String "-" s)) with (String "-" s).
  change (stripSign (String "-" s)) with (-1, s).
  cbv beta iota.
  destruct (stripPrefix s) as [R s2].
  destruct (digits R s2 None) as [m|]; cbn [option_map];
    [f_equal; lia|reflexivity].
Qed.

(** A decimal numeral other than a lone 0, possibly followed by text. *)
Lemma parseInt_uint u rest :
  u <> Decimal.Nil -> u <> Decimal.zero -> stops rest = true ->
  parseInt (NilEmpty.string_of_uint u ++ rest) = Some (Z.of_N (Pos.of_uint u))
  /\ parseInt (String "-" (NilEmpty.string_of_uint u ++ rest))
     = Some (- Z.of_N (Pos.of_uint u)).
Proof.
  intros Hnil Hzero Hrest.
  pose proof (digits_none u rest Hnil Hrest) as Hd.
  assert (stripPrefix (NilEmpty.string_of_uint u ++ rest)
          = (10, (NilEmpty.string_of_uint u ++ rest)%string)) as Hp.
  { clear Hd.
    destruct u as [|v|v|v|v|v|v|v|v|v|v]; [destruct Hnil; reflexivity|..];
      try reflexivity.
    destruct v as [|w|w|w|w|w|w|w|w|w|w]; try reflexivity.
    destruct Hzero. reflexivity. }
  assert (trimStart (NilEmpty.string_of_uint u ++ rest)
          = (NilEmpty.string_of_uint u ++ rest)%string) as Ht
    by (clear Hd Hp; destruct u; [destruct Hnil|..]; reflexivity).
  assert (stripSign (NilEmpty.string_of_uint u ++ rest)
          = (1, (NilEmpty.string_of_uint u ++ rest)%string)) as Hs
    by (clear Hd Hp Ht; destruct u; [destruct Hnil|..]; reflexivity).
  assert (parseInt (NilEmpty.string_of_uint u ++ rest)
          = Some (Z.of_N (Pos.of_uint u))) as Hplus.
  { unfold parseInt. rewrite Ht, Hs, Hp, Hd. f_equal. lia. }
  split; [exact Hplus|].
  rewrite parseInt_minus by assumption. rewrite Hplus. reflexivity.
Qed.

Lemma toString_pos p :
  toString (Z.pos p) = NilEmpty.string_of_uint (Pos.to_uint p)
  /\ toString (Z.neg p) = String "-" (NilEmpty.string_of_uint (Pos.to_uint p)).
Proof.
  unfold toString. cbn [Z.to_int NilZero.string_of_int].
  unfold NilZero.string_of_uint.
  pose proof (Unsigned.to_uint_nonnil p) as H.
  destruct (Pos.to_uint p); [destruct H; reflexivity|..]; split; reflexivity.
Qed.

Lemma parseInt_toString_tail k rest :
  k <> 0 -> stops rest = true -> parseInt (toString k ++ rest) = Some k.
Proof.
  intros Hk Hrest. destruct k as [|p|p]; [destruct Hk; reflexivity|..];
    destruct (toString_pos p) as [Hpos Hneg];
    destruct (parseInt_uint (Pos.to_uint p) rest (Unsigned.to_uint_nonnil p)
                (Unsigned.to_uint_nonzero p) Hrest) as [H1 H2];
    rewrite Unsigned.of_to in H1, H2.
  - rewrite Hpos. exact H1.
  - rewrite Hneg. exact H2.
Qed.

Lemma append_empty s : (s ++ "")%string = s.
Proof. induction s as [|c s IH]; simpl; [|rewrite IH]; reflexivity. Qed.

Lemma parseInt_toString_all k : parseInt (toString k) = Some k.
Proof.
  destruct (Z.eq_dec k 0) as [->|Hk]; [reflexivity|].
  rewrite <- (append_empty (toString k)).
  apply parseInt_toString_tail; [exact Hk|reflexivity].
Qed.

Lemma notificationIdOf_Some s : notificationIdOf (Some s) = parseInt s.
Proof. destruct s; reflexivity. Qed.

(** X1.  The decimal text of an integer of magnitude below 2^53 reads back
    as that integer, so the id the panel writes into the path of a
    dismissal is the id the route reads; the route refuses it as no id
    exactly when it is 0. *)
Theorem parseInt_toString k :
  - 2 ^ 53 < k < 2 ^ 53 ->
  parseInt (toString k) = Some k
  /\ notificationIdOf (Some (toString k)) = Some k
  /\ (noId (notificationIdOf (Some (toString k))) = true <-> k = 0).
Proof.
  intros _. rewrite notificationIdOf_Some, parseInt_toString_all.
  repeat split; simpl; apply Z.eqb_eq.
Qed.

Lemma parseInt_toString_witness :
  toString 9007199254740991 = "9007199254740991"
  /\ parseInt "9007199254740991" = Some 9007199254740991
  /\ parseInt (toString (-42)) = Some (-42).
Proof.
  split; [reflexivity|]. split.
  - apply (parseInt_toString 9007199254740991). split; reflexivity.
  - apply (parseInt_toString (-42)). split; reflexivity.
Defined.

Lemma POST_dismiss_ext p p' request t :
  notificationIdOf p = notificationIdOf p' ->
  POST_dismiss p request t = POST_dismiss p' request t.
Proof.
  intros H. unfold POST_dismiss. rewrite H. reflexivity.
Qed.

(** X2.  The route reads the id leniently: white space in front of the
    number and any text behind it that does not start with a digit are
    ignored, so such a segment dismisses the notification the number
    names. *)
Theorem POST_dismiss_lenient_id ws k rest request t :
  isBlank ws = true -> k <> 0 -> stops rest = true ->
  POST_dismiss (Some (ws ++ toString k ++ rest)%string) request t
  = POST_dismiss (Some (toString k)) request t.
Proof.
  intros Hws Hk Hrest. apply POST_dismiss_ext.
  rewrite !notificationIdOf_Some, parseInt_blank by exact Hws.
  rewrite parseInt_toString_tail by assumption.
  rewrite <- (append_empty (toString k)).
  symmetry. apply parseInt_toString_tail; [exact Hk|reflexivity].
Qed.

Lemma POST_dismiss_lenient_id_witness :
  POST_dismiss (Some " 3abc") (Some (DismissReq.mk (Some "user-1"))) seed
  = POST_dismiss (Some "3") (Some (DismissReq.mk (Some "user-1"))) seed.
Proof.
  apply (POST_dismiss_lenient_id " " 3 "abc"
           (Some (DismissReq.mk (Some "user-1"))) seed).
  - reflexivity.
  - discriminate.
  - reflexivity.
Defined.

(** ** More on the listing *)

(** X3.  A listing never writes to the store.  It is refused with 400,
    before the store is read, exactly when the user id or the role is
    missing or empty; otherwise it answers 200. *)
Theorem GET_reads_only E userId userRole t :
  table (GET E userId userRole t) = t
  /\ mutations (trace (GET E userId userRole t)) = 0%nat
  /\ (status (response (GET E userId userRole t)) = 400
      <-> missing userId \/ missing userRole)
  /\ (status (response (GET E userId userRole t)) = 400 ->
      trace (GET E userId userRole t) = [])
  /\ (status (response (GET E userId userRole t)) = 400
      \/ status (response (GET E userId userRole t)) = 200).
Proof.
  rewrite <- !truthy_false.
  destruct (truthy userId) eqn:Hu; [destruct (truthy userRole) eqn:Hr|].
  - destruct userId as [u|]; [|discriminate].
    destruct userRole as [r|]; [|discriminate].
    apply truthy_Some in Hu. apply truthy_Some in Hr.
    rewrite GET_listing by assumption. cbn.
    repeat split; try discriminate; auto.
    intros [H|H]; discriminate.
  - rewrite GET_missing by auto. cbn. repeat split; auto.
  - rewrite GET_missing by auto. cbn. repeat split; auto.
Qed.

Lemma filter_perm {A} (p : A -> bool) l l' :
  Permutation l l' -> Permutation (filter p l) (filter p l').
Proof.
  induction 1 as [|x l l' H IH|x y l|l l' l'' H1 IH1 H2 IH2]; simpl.
  - constructor.
  - destruct (p x); [constructor|]; exact IH.
  - destruct (p x), (p y); try apply Permutation_refl. apply perm_swap.
  - eapply perm_trans; eassumption.
Qed.

Lemma listVisible_perm_filter E u r t :
  u <> "" -> r <> "" ->
  Permutation (listVisible E u r t) (filter (visibleTo u r) t).
Proof.
  intros Hu Hr. rewrite listVisible_eq by assumption.
  unfold visibleTo.
  rewrite (filter_and (whereVisible u r)
             (fun n => negb (includes (dismissedUsers n) u))).
  apply filter_perm, Permutation_sym, orderBy_perm.
Qed.

(** X4.  Whatever the storage engine, the listing of a viewer holds the
    notifications of the store that the viewer may see, each as often as
    the store holds it: the engine decides their order only, and the count
    is the number of such notifications. *)
Theorem listVisible_same_rows E u r t :
  u <> "" -> r <> "" ->
  Permutation (listVisible E u r t) (filter (visibleTo u r) t)
  /\ payload (response (GET E (Some u) (Some r) t))
     = Listing (listVisible E u r t)
         (List.length (filter (visibleTo u r) t)).
Proof.
  intros Hu Hr. split; [apply listVisible_perm_filter; assumption|].
  rewrite <- (Permutation_length (listVisible_perm_filter E u r t Hu Hr)).
  rewrite listVisible_eq by assumption.
  rewrite GET_listing by assumption. reflexivity.
Qed.

Lemma listVisible_same_rows_witness :
  Permutation (listVisible reversingEngine "user-2" "editor" seed)
    (filter (visibleTo "user-2" "editor") seed).
Proof.
  apply (listVisible_same_rows reversingEngine "user-2" "editor" seed);
    discriminate.
Defined.

Lemma NoDup_map_filter {A B} (f : A -> B) (p : A -> bool) l :
  NoDup (map f l) -> NoDup (map f (filter p l)).
Proof.
  induction l as [|x l IH]; simpl; intros H; [constructor|].
  inversion H as [|? ? Hx Hl]; subst.
  destruct (p x); simpl; [|auto].
  constructor; [|auto].
  intros Hin. apply Hx. apply in_map_iff in Hin.
  destruct Hin as [y [Hy Hin]]. apply filter_In in Hin.
  rewrite <- Hy. apply in_map, Hin.
Qed.

Lemma map_inj_In {A B} (f : A -> B) l x y :
  NoDup (map f l) -> In x l -> In y l -> f x = f y -> x = y.
Proof.
  induction l as [|z l IH]; simpl; intros H Hx Hy Hf; [contradiction|].
  inversion H as [|? ? Hz Hl]; subst.
  destruct Hx as [<-|Hx], Hy as [<-|Hy].
  - reflexivity.
  - destruct Hz. rewrite Hf. apply in_map, Hy.
  - destruct Hz. rewrite <- Hf. apply in_map, Hx.
  - auto.
Qed.

(** Two descending arrangements of rows with pairwise distinct instants are
    the same list. *)
Lemma sorted_perm_unique l1 l2 :
  StronglySorted newerFirst l1 -> StronglySorted newerFirst l2 ->
  Permutation l1 l2 -> NoDup (map createdAt l1) -> l1 = l2.
Proof.
  intros H1. revert l2. induction H1 as [|x l1 Hs1 IH Hx]; intros l2 H2 Hp Hnd.
  - apply Permutation_nil in Hp. subst. reflexivity.
  - destruct H2 as [|y l2 Hs2 Hy].
    + apply Permutation_sym, Permutation_nil in Hp. discriminate.
    + assert (x = y) as <-.
      { apply (map_inj_In createdAt (x :: l1)); try assumption.
        - left. reflexivity.
        - apply (Permutation_in _ (Permutation_sym Hp)). left. reflexivity.
        - rewrite Forall_forall in Hx, Hy. unfold newerFirst in *.
          assert (In y (x :: l1)) as Hyx
            by (apply (Permutation_in _ (Permutation_sym Hp)); left; reflexivity).
          assert (In x (y :: l2)) as Hxy
            by (apply (Permutation_in _ Hp); left; reflexivity).
          destruct Hyx as [->|Hyx]; [reflexivity|].
          destruct Hxy as [->|Hxy]; [reflexivity|].
          specialize (Hx y Hyx). specialize (Hy x Hxy). lia. }
      f_equal. apply Permutation_cons_inv in Hp.
      inversion Hnd; subst. apply IH; assumption.
Qed.

(** X5.  When no two notifications of the store were created at the same
    instant, the listing is the same list for every storage engine: the
    order of ties is the only freedom the engine has. *)
Theorem listVisible_engine_independent E1 E2 u r t :
  NoDup (map createdAt t) ->
  listVisible E1 u r t = listVisible E2 u r t.
Proof.
  intros Hnd.
  destruct (string_dec u "") as [Hu|Hu];
    [rewrite !listVisible_missing by auto; reflexivity|].
  destruct (string_dec r "") as [Hr|Hr];
    [rewrite !listVisible_missing by auto; reflexivity|].
  rewrite !listVisible_eq by assumption. f_equal.
  apply sorted_perm_unique.
  - apply orderBy_sorted.
  - apply orderBy_sorted.
  - eapply perm_trans; [apply Permutation_sym, orderBy_perm|apply orderBy_perm].
  - apply (Permutation_NoDup (l := map createdAt (filter (whereVisible u r) t))).
    + apply Permutation_map, orderBy_perm.
    + apply NoDup_map_filter, Hnd.
Qed.

Lemma listVisible_engine_independent_witness :
  listVisible stableEngine "user-1" "admin" seed
  = listVisible reversingEngine "user-1" "admin" seed.
Proof.
  apply (listVisible_engine_independent stableEngine reversingEngine
           "user-1" "admin" seed).
  simpl.
  repeat (constructor;
          [simpl; intros H; repeat destruct H as [H|H]; try discriminate; exact H|]).
  constructor.
Defined.

(** ** Failures *)

(** The four ways [POST] ends. *)
Lemma POST_cases now request t :
  (request = None
   /\ POST now request t
      = (mkResponse 500 (Failure "Failed to create notification"
                           (Some "Unexpected end of JSON input")), t, []))
  \/ (exists b, request = Some b /\ status (response (POST now request t)) = 403
                /\ table (POST now request t) = t /\ trace (POST now request t) = [])
  \/ (exists b, request = Some b /\ status (response (POST now request t)) = 400
                /\ table (POST now request t) = t /\ trace (POST now request t) = [])
  \/ (exists b, request = Some b /\ accepted b = true
                /\ status (response (POST now request t)) = 201).
Proof.
  destruct request as [b|]; [right|left; split; reflexivity].
  destruct (strictEq (CreateReq.currentUserRole b) "admin") eqn:Ha;
    [|left; exists b; rewrite POST_forbidden by assumption; auto].
  right.
  destruct (truthy (CreateReq.title b) && truthy (CreateReq.message b)
            && truthy (CreateReq.role b)) eqn:Hf;
    [|left; exists b; rewrite POST_incomplete by assumption; auto].
  destruct (includes validRoles (str (CreateReq.role b))) eqn:Hr;
    [|left; exists b; rewrite POST_badRole by assumption; auto].
  right. exists b.
  assert (accepted b = true) as Hacc
    by (unfold accepted; rewrite Ha; cbn [andb]; rewrite Hf, Hr; reflexivity).
  rewrite POST_accepted by exact Hacc. auto.
Qed.

(** X6.  A creation is answered 500 exactly when the body of the request
    cannot be read, and then the store is neither read nor written: the id
    [POST] computes is never refused by the primary key.  The other answers
    are 201, 400 and 403. *)
Theorem POST_fails_only_on_body now request t :
  (status (response (POST now request t)) = 500 <-> request = None)
  /\ (status (response (POST now request t)) = 500 ->
      table (POST now request t) = t /\ trace (POST now request t) = [])
  /\ (status (response (POST now request t)) = 201
      \/ status (response (POST now request t)) = 400
      \/ status (response (POST now request t)) = 403
      \/ status (response (POST now request t)) = 500).
Proof.
  destruct (POST_cases now request t)
    as [[-> ->]|[[b [-> [Hs [Ht Hl]]]]|[[b [-> [Hs [Ht Hl]]]]|[b [-> [_ Hs]]]]]].
  - cbn. repeat split; auto.
  - rewrite Hs. repeat split; try discriminate; auto.
  - rewrite Hs. repeat split; try discriminate; auto.
  - rewrite Hs. repeat split; try discriminate; auto.
Qed.

(** The ways [POST_dismiss] ends. *)
Lemma POST_dismiss_cases p request t :
  (noId (notificationIdOf p) = true
   /\ POST_dismiss p request t
      = (mkResponse 400 (Failure "Invalid notification ID" None), t, []))
  \/ (noId (notificationIdOf p) = false /\ request = None
      /\ POST_dismiss p request t
         = (mkResponse 500 (Failure "Failed to dismiss notification"
                              (Some "Unexpected end of JSON input")), t, []))
  \/ (exists b, noId (notificationIdOf p) = false /\ request = Some b
                /\ truthy (DismissReq.userId b) = false
                /\ POST_dismiss p request t
                   = (mkResponse 400
                        (Failure "Missing required field: userId" None), t, []))
  \/ (exists b, noId (notificationIdOf p) = false /\ request = Some b
                /\ truthy (DismissReq.userId b) = true
                /\ POST_dismiss p request t
                   = (mkResponse 404 (Failure "Notification not found" None),
                      t, [SSelect]))
  \/ (exists b, noId (notificationIdOf p) = false /\ request = Some b
                /\ truthy (DismissReq.userId b) = true
                /\ status (response (POST_dismiss p request t)) = 200).
Proof.
  destruct (noId (notificationIdOf p)) eqn:Hno;
    [left; split; [reflexivity|apply POST_dismiss_noId, Hno]|right].
  destruct request as [b|];
    [right|left; repeat split; apply POST_dismiss_nobody, Hno].
  destruct (truthy (DismissReq.userId b)) eqn:Hu;
    [right|left; exists b; repeat split; auto using POST_dismiss_nouser].
  pose proof Hno as Hno'. apply noId_false in Hno'.
  destruct Hno' as [k [Hp Hk]].
  rewrite (POST_dismiss_lookup p b t k Hp Hk Hu).
  destruct (filter (hasId k) t) as [|n rest];
    [left; exists b; auto|right; exists b].
  destruct (includes (dismissedUsers n) (str (DismissReq.userId b))); auto.
Qed.

(** X7.  A dismissal is answered 200, 400, 404 or 500; 500 exactly when
    the id is accepted and the body cannot be read; a request with an
    accepted id whose body has no user id, or an empty one, is refused with
    400 before the store is read; and every answer other than 200 leaves the
    store as it was, with no statement that writes. *)
Theorem POST_dismiss_failures p request t :
  (status (response (POST_dismiss p request t)) = 500
   <-> noId (notificationIdOf p) = false /\ request = None)
  /\ (forall b, noId (notificationIdOf p) = false -> request = Some b ->
        missing (DismissReq.userId b) ->
        POST_dismiss p request t
        = (mkResponse 400 (Failure "Missing required field: userId" None), t, []))
  /\ (status (response (POST_dismiss p request t)) <> 200 ->
      table (POST_dismiss p request t) = t
      /\ mutations (trace (POST_dismiss p request t)) = 0%nat)
  /\ (status (response (POST_dismiss p request t)) = 200
      \/ status (response (POST_dismiss p request t)) = 400
      \/ status (response (POST_dismiss p request t)) = 404
      \/ status (response (POST_dismiss p request t)) = 500).
Proof.
  split; [|split].
  - destruct (POST_dismiss_cases p request t)
      as [[Hno ->]|[[Hno [-> ->]]|[[b [Hno [-> [_ ->]]]]
          |[[b [Hno [-> [_ ->]]]]|[b [Hno [-> [_ Hs]]]]]]]]; cbn.
    + split; [discriminate|]. intros [H _]. congruence.
    + split; auto.
    + split; [discriminate|]. intros [_ H]. discriminate.
    + split; [discriminate|]. intros [_ H]. discriminate.
    + rewrite Hs. split; [discriminate|]. intros [_ H]. discriminate.
  - intros b Hno -> Hm. apply truthy_false in Hm.
    apply POST_dismiss_nouser; assumption.
  - destruct (POST_dismiss_cases p request t)
      as [[Hno ->]|[[Hno [-> ->]]|[[b [Hno [-> [_ ->]]]]
          |[[b [Hno [-> [_ ->]]]]|[b [Hno [-> [_ Hs]]]]]]]]; cbn; auto 6.
    rewrite Hs. split; [congruence|auto].
Qed.

(** ** What the routes never touch *)

Lemma core_updateRow k d n : core (updateRow k d n) = core n.
Proof. unfold updateRow. destruct (hasId k n); reflexivity. Qed.

Lemma map_core_updateRow k d t : map core (map (updateRow k d) t) = map core t.
Proof.
  rewrite map_map. apply map_ext. intros n. apply core_updateRow.
Qed.

Lemma route_core E c t :
  exists l, map core (table (route E c t)) = map core t ++ l.
Proof.
  destruct c as [u r|now request|p request]; simpl.
  - exists []. rewrite GET_table, app_nil_r. reflexivity.
  - destruct (POST_table now request t) as [->|[b [_ [_ ->]]]].
    + exists []. rewrite app_nil_r. reflexivity.
    + exists [core (newRow now b t)]. apply map_app.
  - exists []. rewrite app_nil_r.
    destruct (POST_dismiss_table p request t) as [->|[k [u [n [_ [_ [_ ->]]]]]]].
    + reflexivity.
    + apply map_core_updateRow.
Qed.

(** X8.  No sequence of listings, creations and dismissals deletes,
    reorders or edits a notification: apart from the [dismissed] arrays,
    the store after the calls is the store before them, followed by the
    notifications created in between. *)
Theorem run_keeps_notifications E cs t :
  exists l, map core (run E cs t) = map core t ++ l.
Proof.
  revert t. induction cs as [|c cs IH]; simpl; intros t.
  - exists []. rewrite app_nil_r. reflexivity.
  - destruct (IH (table (route E c t))) as [l2 H2].
    destruct (route_core E c t) as [l1 H1].
    exists (l1 ++ l2). rewrite H2, H1, app_assoc. reflexivity.
Qed.

Lemma positiveIds_seed : positiveIds seed.
Proof.
  intros n Hn. simpl in Hn.
  destruct Hn as [<-|[<-|[<-|[<-|[<-|[]]]]]]; reflexivity.
Qed.

Lemma nextIdOf_positive t : positiveIds t -> 0 < nextIdOf t.
Proof.
  intros H. destruct t as [|n t]; [reflexivity|].
  pose proof (nextIdOf_above (n :: t) n (or_introl eq_refl)).
  specialize (H n (or_introl eq_refl)). lia.
Qed.

Lemma route_positiveIds E c t :
  positiveIds t -> positiveIds (table (route E c t)).
Proof.
  intros H. destruct c as [u r|now request|p request]; simpl.
  - rewrite GET_table. exact H.
  - destruct (POST_table now request t) as [->|[b [_ [_ ->]]]]; [exact H|].
    intros n Hn. apply in_app_iff in Hn. destruct Hn as [Hn|[<-|[]]]; [auto|].
    apply nextIdOf_positive, H.
  - destruct (POST_dismiss_table p request t) as [->|[k [u [n [_ [_ [_ ->]]]]]]];
      [exact H|].
    intros x Hx. apply in_map_iff in Hx. destruct Hx as [y [<- Hy]].
    rewrite updateRow_id. auto.
Qed.

(** X9.  Ids start at 1 and stay there: from a store whose ids are all
    positive, every sequence of calls leads to a store whose ids are all
    positive, so that no notification ever gets the id 0, which the
    dismissal route refuses. *)
Theorem run_keeps_ids_positive E cs t :
  positiveIds t -> positiveIds (run E cs t).
Proof.
  revert t. induction cs as [|c cs IH]; simpl; intros t H; [exact H|].
  apply IH, route_positiveIds, H.
Qed.

Lemma run_keeps_ids_positive_witness :
  positiveIds
    (run stableEngine
       [CallCreate 0 (Some (CreateReq.mk (Some "t") (Some "m") (Some "all") None
                              (Some "admin")));
        CallDismiss (Some "6") (Some (DismissReq.mk (Some "user-2")))]
       seed).
Proof.
  apply (run_keeps_ids_positive stableEngine _ seed). exact positiveIds_seed.
Defined.

(** ** More on creation *)

Lemma hd_sorted_newest l n :
  StronglySorted newerFirst l -> In n l ->
  (forall m, In m l -> m = n \/ createdAt m < createdAt n) ->
  hd_error l = Some n.
Proof.
  intros Hs Hn Hnew. destruct Hs as [|x l Hs Hx]; [destruct Hn|].
  simpl. f_equal.
  destruct (Hnew x (or_introl eq_refl)) as [He|Hlt]; [exact He|].
  destruct Hn as [He|Hn]; [exact He|].
  rewrite Forall_forall in Hx. specialize (Hx n Hn). unfold newerFirst in Hx.
  lia.
Qed.

(** X10.  A notification created at an instant later than those of all the
    stored ones is the first of the listing of every viewer it addresses,
    whatever the storage engine. *)
Theorem created_is_listed_first now b t E u r :
  accepted b = true -> (forall n, In n t -> createdAt n < now) ->
  u <> "" -> r <> "" ->
  str (CreateReq.role b) = r \/ str (CreateReq.role b) = "all" ->
  orNull (CreateReq.userId b) = None \/ orNull (CreateReq.userId b) = Some u ->
  exists n,
    payload (response (POST now (Some b) t)) = Created (Some n)
    /\ dismissed n = JArray [] /\ createdAt n = now
    /\ hd_error (listVisible E u r (table (POST now (Some b) t))) = Some n.
Proof.
  intros Hacc Hnow Hu Hr Hrole Huser. rewrite POST_accepted by exact Hacc.
  exists (newRow now b t). cbn [response table fst snd payload].
  repeat split.
  apply hd_sorted_newest.
  - apply listVisible_sorted.
  - apply In_listVisible; try assumption. split.
    + apply in_or_app. right. left. reflexivity.
    + apply visibleTo_iff. simpl. auto.
  - intros m Hm. apply In_listVisible in Hm; try assumption.
    destruct Hm as [Hm _]. apply in_app_iff in Hm.
    destruct Hm as [Hm|[<-|[]]]; [right|left; reflexivity].
    simpl. auto.
Qed.

Lemma created_is_listed_first_witness :
  exists n,
    title n = "t"
    /\ hd_error
         (listVisible reversingEngine "user-3" "user"
            (table (POST 1761100000000
                      (Some (CreateReq.mk (Some "t") (Some "m") (Some "all") None
                               (Some "admin"))) seed))) = Some n.
Proof.
  destruct (created_is_listed_first 1761100000000
              (CreateReq.mk (Some "t") (Some "m") (Some "all") None (Some "admin"))
              seed reversingEngine "user-3" "user")
    as [n [Hp [_ [_ Hhd]]]].
  - reflexivity.
  - intros n Hn. simpl in Hn.
    destruct Hn as [<-|[<-|[<-|[<-|[<-|[]]]]]]; reflexivity.
  - discriminate.
  - discriminate.
  - right. reflexivity.
  - left. reflexivity.
  - exists n. split; [|exact Hhd].
    rewrite POST_accepted in Hp by reflexivity.
    injection Hp as <-. reflexivity.
Defined.

(** X11.  An accepted creation request with a non-empty [userId] stores a
    notification for that user only: it is in no listing of any other user,
    whatever the role asked for, and it is in the listings of that user
    under the role it addresses. *)
Theorem create_targeted now b t E v :
  accepted b = true -> CreateReq.userId b = Some v -> v <> "" ->
  exists n,
    payload (response (POST now (Some b) t)) = Created (Some n)
    /\ userId n = Some v
    /\ (forall w r, w <> v ->
          ~ In n (listVisible E w r (table (POST now (Some b) t))))
    /\ (forall r, r <> "" ->
          str (CreateReq.role b) = r \/ str (CreateReq.role b) = "all" ->
          In n (listVisible E v r (table (POST now (Some b) t)))).
Proof.
  intros Hacc Hv Hne. rewrite POST_accepted by exact Hacc.
  exists (newRow now b t). cbn [response table fst snd payload].
  assert (userId (newRow now b t) = Some v) as Huser.
  { simpl. rewrite Hv. unfold orNull.
    apply truthy_Some in Hne. rewrite Hne. reflexivity. }
  split; [reflexivity|]. split; [exact Huser|]. split.
  - intros w r Hw Hin.
    destruct (string_dec w "") as [Hw0|Hw0];
      [rewrite listVisible_missing in Hin by auto; destruct Hin|].
    destruct (string_dec r "") as [Hr0|Hr0];
      [rewrite listVisible_missing in Hin by auto; destruct Hin|].
    apply In_listVisible in Hin; try assumption.
    destruct Hin as [_ Hvis]. apply visibleTo_iff in Hvis.
    destruct Hvis as [_ [[H|H] _]]; congruence.
  - intros r Hr Hrole. apply In_listVisible; try assumption. split.
    + apply in_or_app. right. left. reflexivity.
    + apply visibleTo_iff. split; [exact Hrole|].
      split; [right; exact Huser|]. simpl. auto.
Qed.

Lemma create_targeted_witness :
  exists n,
    userId n = Some "user-2"
    /\ ~ In n (listVisible stableEngine "user-1" "editor"
                 (table (POST 0 (Some (CreateReq.mk (Some "t") (Some "m")
                                         (Some "editor") (Some "user-2")
                                         (Some "admin"))) seed))).
Proof.
  destruct (create_targeted 0
              (CreateReq.mk (Some "t") (Some "m") (Some "editor") (Some "user-2")
                 (Some "admin")) seed stableEngine "user-2")
    as [n [_ [Hu [Hnot _]]]].
  - reflexivity.
  - reflexivity.
  - discriminate.
  - exists n. split; [exact Hu|]. apply Hnot. discriminate.
Defined.

(** ** More on dismissal *)

Lemma includes_app l l' x : includes (l ++ l') x = includes l x || includes l' x.
Proof. unfold includes. apply existsb_app. Qed.

Lemma includes_snoc_same l u : includes (l ++ [u]) u = true.
Proof.
  rewrite includes_app. simpl. rewrite String.eqb_refl.
  destruct (includes l u); reflexivity.
Qed.

Lemma includes_snoc_other l u v : v <> u -> includes (l ++ [u]) v = includes l v.
Proof.
  intros H. rewrite includes_app. simpl.
  assert ((u =? v)%string = false) as -> by (apply String.eqb_neq; congruence).
  destruct (includes l v); reflexivity.
Qed.

(** After a dismissal by [u], the rows [u] may see are those [u] could see
    before, less the rows under the dismissed id. *)
Lemma filter_visibleTo_updateRow u r k d t :
  filter (visibleTo u r) (map (updateRow k (d ++ [u])) t)
  = filter (fun n => negb (id n =? k)) (filter (visibleTo u r) t).
Proof.
  induction t as [|x t IH]; simpl; [reflexivity|].
  destruct (id x =? k) eqn:Hk.
  - assert (updateRow k (d ++ [u]) x = setDismissed (d ++ [u]) x) as ->
      by (unfold updateRow, hasId; rewrite Hk; reflexivity).
    assert (visibleTo u r (setDismissed (d ++ [u]) x) = false) as ->.
    { unfold visibleTo. cbn [dismissedUsers setDismissed dismissed].
      rewrite includes_snoc_same. apply andb_false_r. }
    destruct (visibleTo u r x); simpl; rewrite ?Hk; exact IH.
  - assert (updateRow k (d ++ [u]) x = x) as ->
      by (unfold updateRow, hasId; rewrite Hk; reflexivity).
    destruct (visibleTo u r x); simpl; rewrite ?Hk, IH; reflexivity.
Qed.

(** For another user, the rows are seen as before. *)
Lemma filter_visibleTo_updateRow_other u v r k n t :
  keyed t -> In n t -> id n = k -> v <> u ->
  map core (filter (visibleTo v r)
              (map (updateRow k (dismissedUsers n ++ [u])) t))
  = map core (filter (visibleTo v r) t).
Proof.
  intros Hkey Hn Hid Hv.
  assert (forall x, In x t ->
            visibleTo v r (updateRow k (dismissedUsers n ++ [u]) x)
            = visibleTo v r x) as Hsame.
  { intros x Hx. unfold updateRow. destruct (hasId k x) eqn:Hh; [|reflexivity].
    unfold hasId in Hh. apply Z.eqb_eq in Hh.
    assert (x = n) as -> by (apply (keyed_unique t); congruence).
    unfold visibleTo. cbn [dismissedUsers setDismissed dismissed].
    rewrite includes_snoc_other by exact Hv. reflexivity. }
  clear Hkey Hn Hid. induction t as [|x t IH]; simpl; [reflexivity|].
  rewrite (Hsame x (or_introl eq_refl)).
  destruct (visibleTo v r x); simpl.
  - rewrite core_updateRow. f_equal. apply IH. intros y Hy. apply Hsame.
    right. exact Hy.
  - apply IH. intros y Hy. apply Hsame. right. exact Hy.
Qed.

Lemma dismiss_table seg u t :
  table (dismiss seg u t) = t
  \/ exists k n,
       In n t /\ id n = k
       /\ table (dismiss seg u t) = map (updateRow k (dismissedUsers n ++ [u])) t.
Proof.
  unfold dismiss.
  destruct (noId (notificationIdOf (Some seg))) eqn:Hno;
    [left; rewrite POST_dismiss_noId by assumption; reflexivity|].
  destruct (truthy (Some u)) eqn:Hu;
    [|left; rewrite POST_dismiss_nouser by assumption; reflexivity].
  apply noId_false in Hno. destruct Hno as [k [Hp Hk]].
  rewrite (POST_dismiss_lookup (Some seg) (DismissReq.mk (Some u)) t k Hp Hk Hu).
  destruct (filter (hasId k) t) as [|n rest] eqn:Hf; [left; reflexivity|].
  cbn [DismissReq.userId str].
  destruct (includes (dismissedUsers n) u) eqn:Hin; [left; reflexivity|].
  right. exists k, n.
  apply filter_hasId_head in Hf. destruct Hf as [Hn Hid]. auto.
Qed.

(** X12.  A dismissal counts for the user who made it only: to every other
    user, under every role, the listing shows the same notifications after
    it as before. *)
Theorem dismiss_only_for_user E seg u v r t :
  keyed t -> v <> u ->
  Permutation (map core (listVisible E v r (table (dismiss seg u t))))
              (map core (listVisible E v r t)).
Proof.
  intros Hkey Hv.
  destruct (string_dec v "") as [Hv0|Hv0];
    [rewrite !listVisible_missing by auto; constructor|].
  destruct (string_dec r "") as [Hr0|Hr0];
    [rewrite !listVisible_missing by auto; constructor|].
  destruct (dismiss_table seg u t) as [->|[k [n [Hn [Hid ->]]]]];
    [apply Permutation_refl|].
  eapply perm_trans;
    [apply Permutation_map, listVisible_perm_filter; assumption|].
  rewrite (filter_visibleTo_updateRow_other u v r k n t) by assumption.
  apply Permutation_map, Permutation_sym, listVisible_perm_filter; assumption.
Qed.

Lemma dismiss_only_for_user_witness :
  Permutation
    (map core (listVisible stableEngine "user-2" "editor"
                 (table (dismiss "3" "user-1" seed))))
    (map core (listVisible stableEngine "user-2" "editor" seed)).
Proof.
  apply (dismiss_only_for_user stableEngine "3" "user-1" "user-2" "editor" seed).
  - exact keyed_seed.
  - discriminate.
Defined.

(** ** The panel and the routes *)

Lemma filter_hasId_keyed k t n :
  keyed t -> In n t -> id n = k -> filter (hasId k) t = [n].
Proof.
  intros Hkey Hn Hid. unfold keyed in Hkey.
  induction t as [|x t IH]; simpl; [destruct Hn|].
  inversion Hkey as [|? ? Hx Hk']; subst.
  assert (forall y, In y t -> id y <> id x) as Hfresh
    by (intros y Hy He; apply Hx; rewrite <- He; apply in_map, Hy).
  destruct Hn as [->|Hn].
  - unfold hasId at 1. rewrite Z.eqb_refl. f_equal.
    apply filter_hasId_nil. intros y Hy. apply Hfresh, Hy.
  - unfold hasId at 1.
    assert ((id x =? id n) = false) as ->
      by (apply Z.eqb_neq; intros He; apply (Hfresh n Hn); congruence).
    apply IH; assumption.
Qed.

(** X13.  When the panel shows the listing of its user and dismisses one of
    the notifications it shows, the route accepts the request (no alert is
    raised), the notification is gone from the panel, and what the panel
    then holds and counts is what a fresh listing would give it. *)
Theorem panel_dismiss_agrees E p store n :
  keyed store ->
  NotificationPanel.userId p <> "" -> NotificationPanel.userRole p <> "" ->
  NotificationPanel.notifications p
  = listVisible E (NotificationPanel.userId p) (NotificationPanel.userRole p)
      store ->
  In n (NotificationPanel.notifications p) -> id n <> 0 ->
  exists p' store',
    NotificationPanel.dismissNotification (id n) p store = (p', false, store')
    /\ (forall m, In m (NotificationPanel.notifications p') -> id m <> id n)
    /\ Permutation (NotificationPanel.notifications p')
         (listVisible E (NotificationPanel.userId p)
            (NotificationPanel.userRole p) store')
    /\ NotificationPanel.badge p'
       = NotificationPanel.updateBadge
           (Z.of_nat (List.length
              (listVisible E (NotificationPanel.userId p)
                 (NotificationPanel.userRole p) store'))).
Proof.
  intros Hkey Hu Hr Hheld Hn Hid.
  set (u := NotificationPanel.userId p) in *.
  set (r := NotificationPanel.userRole p) in *.
  rewrite Hheld in Hn.
  pose proof Hn as Hin. apply In_listVisible in Hin; try assumption.
  destruct Hin as [Hstore Hvis]. apply visibleTo_iff in Hvis.
  destruct Hvis as [_ [_ Hnot]]. apply includes_notIn in Hnot.
  pose proof Hu as Htr. apply truthy_Some in Htr.
  assert (notificationIdOf (Some (toString (id n))) = Some (id n)) as Hp
    by (rewrite notificationIdOf_Some; apply parseInt_toString_all).
  unfold NotificationPanel.dismissNotification. fold u.
  rewrite (POST_dismiss_lookup (Some (toString (id n)))
             (DismissReq.mk (Some u)) store (id n) Hp Hid Htr).
  rewrite (filter_hasId_keyed (id n) store n Hkey Hstore eq_refl).
  cbn [DismissReq.userId str]. rewrite Hnot. cbv zeta.
  cbn [ok status negb andb Z.leb Z.compare Pos.compare Pos.compare_cont].
  set (store' := map (updateRow (id n) (dismissedUsers n ++ [u])) store).
  set (remaining :=
         filter (fun m => negb (id m =? id n)) (NotificationPanel.notifications p)).
  assert (Permutation remaining (listVisible E u r store')) as Hperm.
  { unfold remaining, store'. rewrite Hheld.
    eapply perm_trans;
      [apply filter_perm, listVisible_perm_filter; assumption|].
    rewrite <- (filter_visibleTo_updateRow u r (id n) (dismissedUsers n) store).
    apply Permutation_sym, listVisible_perm_filter; assumption. }
  assert (forall m, In m remaining -> id m <> id n) as Hgone.
  { intros m Hm. apply filter_In in Hm. destruct Hm as [_ Hm].
    apply negb_true_iff, Z.eqb_neq in Hm. exact Hm. }
  destruct (List.length remaining =? 0)%nat;
    eexists; exists store'; (split; [reflexivity|]);
    cbn [NotificationPanel.notifications NotificationPanel.badge
         NotificationPanel.showState];
    rewrite <- (Permutation_length Hperm); auto.
Qed.

Lemma panel_dismiss_agrees_witness :
  exists p' store',
    NotificationPanel.dismissNotification 3
      (NotificationPanel.mk "user-3" "user" true
         (listVisible stableEngine "user-3" "user" seed)
         (NotificationPanel.updateBadge 1) ListView) seed
    = (p', false, store')
    /\ NotificationPanel.notifications p' = [].
Proof.
  destruct (panel_dismiss_agrees stableEngine
              (NotificationPanel.mk "user-3" "user" true
                 (listVisible stableEngine "user-3" "user" seed)
                 (NotificationPanel.updateBadge 1) ListView) seed welcome)
    as [p' [store' [Hrun _]]].
  - exact keyed_seed.
  - discriminate.
  - discriminate.
  - reflexivity.
  - left. reflexivity.
  - discriminate.
  - exists p', store'. split; [exact Hrun|].
    change (id welcome) with 3 in Hrun.
    vm_compute in Hrun. injection Hrun as <- _. reflexivity.
Defined.

(** X14.  A load by a panel whose user id and role are not empty, answered
    by the route, never ends in the error state: the panel then holds the
    listing of its user, the badge counts it, and the panel body shows the
    empty state exactly when the listing is empty and the list otherwise;
    whether the panel is open does not change. *)
Theorem loadNotifications_shows_listing E silent p store :
  NotificationPanel.userId p <> "" -> NotificationPanel.userRole p <> "" ->
  NotificationPanel.notifications
    (NotificationPanel.loadNotifications silent
       (NotificationPanel.fetchNotifications E p store) p)
  = listVisible E (NotificationPanel.userId p) (NotificationPanel.userRole p)
      store
  /\ NotificationPanel.badge
       (NotificationPanel.loadNotifications silent
          (NotificationPanel.fetchNotifications E p store) p)
     = NotificationPanel.updateBadge
         (Z.of_nat (List.length
            (listVisible E (NotificationPanel.userId p)
               (NotificationPanel.userRole p) store)))
  /\ (NotificationPanel.shown
        (NotificationPanel.loadNotifications silent
           (NotificationPanel.fetchNotifications E p store) p) = Empty
      <-> listVisible E (NotificationPanel.userId p)
            (NotificationPanel.userRole p) store = [])
  /\ (NotificationPanel.shown
        (NotificationPanel.loadNotifications silent
           (NotificationPanel.fetchNotifications E p store) p) = ListView
      <-> listVisible E (NotificationPanel.userId p)
            (NotificationPanel.userRole p) store <> [])
  /\ NotificationPanel.isOpen
       (NotificationPanel.loadNotifications silent
          (NotificationPanel.fetchNotifications E p store) p)
     = NotificationPanel.isOpen p.
Proof.
  intros Hu Hr.
  unfold NotificationPanel.loadNotifications, NotificationPanel.fetchNotifications.
  rewrite listVisible_eq by assumption.
  rewrite GET_listing by assumption. cbv zeta.
  cbn [fst snd ok status payload negb andb Z.leb Z.compare Pos.compare
       Pos.compare_cont data_notifications data_count].
  destruct (filter (fun n => negb (includes (dismissedUsers n)
                                     (NotificationPanel.userId p)))
              (orderBy E (filter (whereVisible (NotificationPanel.userId p)
                                    (NotificationPanel.userRole p)) store)))
    as [|x l]; destruct silent; cbn; repeat split; try discriminate;
    try reflexivity; try congruence.
Qed.

Lemma loadNotifications_shows_listing_witness :
  NotificationPanel.shown
    (NotificationPanel.loadNotifications false
       (NotificationPanel.fetchNotifications stableEngine
          (NotificationPanel.mk "user-1" "admin" false []
             (NotificationPanel.updateBadge 0) Loading) seed)
       (NotificationPanel.mk "user-1" "admin" false []
          (NotificationPanel.updateBadge 0) Loading))
  = ListView.
Proof.
  apply (loadNotifications_shows_listing stableEngine false
           (NotificationPanel.mk "user-1" "admin" false []
              (NotificationPanel.updateBadge 0) Loading) seed).
  - discriminate.
  - discriminate.
  - vm_compute. discriminate.
Defined.

Lemma loadNotifications_silent fetched p :
  NotificationPanel.isOpen (NotificationPanel.loadNotifications true fetched p)
  = NotificationPanel.isOpen p
  /\ NotificationPanel.notifications
       (NotificationPanel.loadNotifications true fetched p)
     = match fetched with
       | Fetched data => data_notifications data
       | Failed => NotificationPanel.notifications p
       end
  /\ (NotificationPanel.shown (NotificationPanel.loadNotifications true fetched p)
      = NotificationPanel.shown p
      \/ NotificationPanel.shown (NotificationPanel.loadNotifications true fetched p)
         = Empty
      \/ NotificationPanel.shown (NotificationPanel.loadNotifications true fetched p)
         = ListView).
Proof.
  unfold NotificationPanel.loadNotifications.
  destruct fetched as [data|]; cbv zeta; [|auto].
  destruct (List.length (data_notifications data) =? 0)%nat; cbn; auto.
Qed.

(** X19.  The background poll never disturbs the panel: after any run of
    silent loads, however each fetch ended, the panel is open or closed as
    before, it holds the listing of the last fetch that did not fail (its
    earlier list when all failed), and it shows the loading or the error
    state only if it showed that state before the run. *)
Theorem poll_keeps_last_listing ticks p :
  NotificationPanel.isOpen (NotificationPanel.poll ticks p)
  = NotificationPanel.isOpen p
  /\ NotificationPanel.notifications (NotificationPanel.poll ticks p)
     = match lastFetched ticks with
       | Some data => data_notifications data
       | None => NotificationPanel.notifications p
       end
  /\ (NotificationPanel.shown (NotificationPanel.poll ticks p) = Loading ->
      NotificationPanel.shown p = Loading)
  /\ (NotificationPanel.shown (NotificationPanel.poll ticks p) = Error ->
      NotificationPanel.shown p = Error).
Proof.
  revert p. induction ticks as [|fetched ticks IH]; intros p; simpl.
  - auto.
  - destruct (IH (NotificationPanel.loadNotifications true fetched p))
      as [Hopen [Hlist [Hload Herr]]].
    destruct (loadNotifications_silent fetched p) as [Hopen1 [Hlist1 Hshown1]].
    split; [congruence|]. split; [|split].
    + rewrite Hlist. destruct (lastFetched ticks) as [data|]; [reflexivity|].
      rewrite Hlist1. destruct fetched; reflexivity.
    + intros H. specialize (Hload H).
      destruct Hshown1 as [He|[He|He]]; congruence.
    + intros H. specialize (Herr H).
      destruct Hshown1 as [He|[He|He]]; congruence.
Qed.

Lemma POST_dismiss_not200 p request t :
  status (response (POST_dismiss p request t)) <> 200 ->
  table (POST_dismiss p request t) = t.
Proof.
  destruct (POST_dismiss_cases p request t)
    as [[Hno ->]|[[Hno [-> ->]]|[[b [Hno [-> [_ ->]]]]
        |[[b [Hno [-> [_ ->]]]]|[b [Hno [-> [_ Hs]]]]]]]]; try reflexivity.
  intros H. destruct (H Hs).
Qed.

(** X20.  When a dismissal by the panel ends in the failure alert, nothing
    has changed: the panel is as it was and so is the store.  The id 0 is
    such a case. *)
Theorem panel_dismiss_failure k p store :
  snd (fst (NotificationPanel.dismissNotification k p store)) = true ->
  fst (fst (NotificationPanel.dismissNotification k p store)) = p
  /\ snd (NotificationPanel.dismissNotification k p store) = store.
Proof.
  unfold NotificationPanel.dismissNotification.
  pose proof (POST_dismiss_not200 (Some (toString k))
                (Some (DismissReq.mk (Some (NotificationPanel.userId p)))) store)
    as Hkeep.
  destruct (POST_dismiss (Some (toString k))
              (Some (DismissReq.mk (Some (NotificationPanel.userId p)))) store)
    as [[resp store'] l].
  cbn [table response trace fst snd] in Hkeep.
  destruct (ok resp) eqn:Hok; cbn [negb].
  - destruct (List.length _ =? 0)%nat; cbn; discriminate.
  - cbn. intros _. split; [reflexivity|]. apply Hkeep.
    intros Hs. unfold ok in Hok. rewrite Hs in Hok. discriminate.
Qed.

Lemma panel_dismiss_failure_witness :
  snd (NotificationPanel.dismissNotification 0
         (NotificationPanel.mk "user-1" "admin" true [] 
            (NotificationPanel.updateBadge 0) Empty) seed) = seed.
Proof.
  apply (panel_dismiss_failure 0
           (NotificationPanel.mk "user-1" "admin" true []
              (NotificationPanel.updateBadge 0) Empty) seed).
  reflexivity.
Defined.

(** ** The panel's labels *)

(** X15.  The label of a timestamp tells the age of the notification in the
    largest unit that fits: "just now" under a minute (or from the future),
    1 to 59 whole minutes, 1 to 23 whole hours, 1 to 6 whole days, and a
    date from seven days on. *)
Theorem formatTimestamp_ranges now date :
  match NotificationPanel.formatTimestamp now date with
  | JustNow => now - date < 60000
  | MinutesAgo m =>
      1 <= m <= 59 /\ m * 60000 <= now - date < (m + 1) * 60000
  | HoursAgo h =>
      1 <= h <= 23 /\ h * 3600000 <= now - date < (h + 1) * 3600000
  | DaysAgo d =>
      1 <= d <= 6 /\ d * 86400000 <= now - date < (d + 1) * 86400000
  | OnDate => 7 * 86400000 <= now - date
  end.
Proof.
  unfold NotificationPanel.formatTimestamp. cbv zeta.
  change (1000 * 60 * 60 * 24) with 86400000.
  change (1000 * 60 * 60) with 3600000.
  change (1000 * 60) with 60000.
  set (diff := now - date).
  pose proof (Z.div_mod diff 60000 ltac:(lia)) as Hm.
  pose proof (Z.mod_pos_bound diff 60000 ltac:(lia)) as Hm'.
  pose proof (Z.div_mod diff 3600000 ltac:(lia)) as Hh.
  pose proof (Z.mod_pos_bound diff 3600000 ltac:(lia)) as Hh'.
  pose proof (Z.div_mod diff 86400000 ltac:(lia)) as Hd.
  pose proof (Z.mod_pos_bound diff 86400000 ltac:(lia)) as Hd'.
  destruct (Z.ltb_spec (diff / 60000) 1); [lia|].
  destruct (Z.ltb_spec (diff / 60000) 60); [lia|].
  destruct (Z.ltb_spec (diff / 3600000) 24); [lia|].
  destruct (Z.ltb_spec (diff / 86400000) 7); lia.
Qed.

(** X16.  The panel marks a notification as new exactly when the label of
    its timestamp is not yet in days: "just now", minutes or hours. *)
Theorem isNotificationNew_iff now createdAt :
  NotificationPanel.isNotificationNew now createdAt = true
  <-> match NotificationPanel.formatTimestamp now createdAt with
      | JustNow | MinutesAgo _ | HoursAgo _ => True
      | DaysAgo _ | OnDate => False
      end.
Proof.
  unfold NotificationPanel.isNotificationNew, NotificationPanel.formatTimestamp.
  cbv zeta. rewrite Z.ltb_lt.
  change (1000 * 60 * 60 * 24) with 86400000.
  change (24 * (1000 * 60 * 60)) with 86400000.
  change (1000 * 60 * 60) with 3600000.
  change (1000 * 60) with 60000.
  set (diff := now - createdAt).
  pose proof (Z.div_mod diff 60000 ltac:(lia)) as Hm.
  pose proof (Z.mod_pos_bound diff 60000 ltac:(lia)) as Hm'.
  pose proof (Z.div_mod diff 3600000 ltac:(lia)) as Hh.
  pose proof (Z.mod_pos_bound diff 3600000 ltac:(lia)) as Hh'.
  destruct (Z.ltb_spec (diff / 60000) 1); [split; [tauto|lia]|].
  destruct (Z.ltb_spec (diff / 60000) 60); [split; [tauto|lia]|].
  destruct (Z.ltb_spec (diff / 3600000) 24); [split; [tauto|lia]|].
  destruct (Z.ltb_spec (diff / 86400000) 7); split; try tauto; lia.
Qed.

Lemma small_counts :
  forallb (fun i => (String.length (toString (Z.of_nat i)) <=? 2)%nat
                    && negb (toString (Z.of_nat i) =? "99+")%string)
          (seq 0 100) = true.
Proof. vm_compute. reflexivity. Qed.

(** X17.  For a count that is not negative the badge shows at most three
    characters: ["99+"] exactly when the count is above 99, and the count
    itself otherwise; it is highlighted exactly when the count is not 0. *)
Theorem updateBadge_fits count :
  0 <= count ->
  fitsBadge (textContent (NotificationPanel.updateBadge count))
  /\ (textContent (NotificationPanel.updateBadge count) = "99+" <-> 99 < count)
  /\ (99 < count \/ textContent (NotificationPanel.updateBadge count)
                    = toString count)
  /\ (hasNotifications (NotificationPanel.updateBadge count) = true
      <-> 0 < count).
Proof.
  intros H0. unfold NotificationPanel.updateBadge, fitsBadge.
  cbn [textContent hasNotifications].
  assert ((count >? 0) = true <-> 0 < count) as Hpos
    by (destruct (Z.gtb_spec count 0); split; try discriminate; lia).
  destruct (Z.gtb_spec count 99) as [Hbig|Hsmall].
  - repeat split; try apply Hpos; auto; simpl; lia.
  - pose proof small_counts as Hall. rewrite forallb_forall in Hall.
    specialize (Hall (Z.to_nat count)).
    rewrite Z2Nat.id in Hall by exact H0.
    assert (In (Z.to_nat count) (seq 0 100)) as Hin by (apply in_seq; lia).
    apply Hall in Hin. apply andb_true_iff in Hin. destruct Hin as [Hlen Hne].
    apply Nat.leb_le in Hlen. apply negb_true_iff, String.eqb_neq in Hne.
    repeat split; try apply Hpos; auto; try lia. intros He. destruct (Hne He).
Qed.

Lemma updateBadge_fits_witness :
  textContent (NotificationPanel.updateBadge 7) = toString 7.
Proof.
  destruct (updateBadge_fits 7) as [_ [_ [[H|H] _]]].
  - discriminate.
  - discriminate H.
  - exact H.
Defined.

(** ** The first dismissal *)

(** X18.  The first dismissal of a stored notification by a user answers
    200 with the updated record: the notification as it was, with the user
    appended to its [dismissed] array.  The store holds that record, one
    statement wrote to it, and from then on no listing of that user shows a
    notification under that id. *)
Theorem dismiss_first_time seg k u t n :
  keyed t -> notificationIdOf (Some seg) = Some k -> k <> 0 -> u <> "" ->
  In n t -> id n = k -> ~ In u (dismissedUsers n) ->
  exists n',
    response (dismiss seg u t) = mkResponse 200 (Dismissed (Some n'))
    /\ core n' = core n
    /\ dismissedUsers n' = dismissedUsers n ++ [u]
    /\ In n' (table (dismiss seg u t))
    /\ mutations (trace (dismiss seg u t)) = 1%nat
    /\ forall E r m,
         In m (listVisible E u r (table (dismiss seg u t))) -> id m <> k.
Proof.
  intros Hkey Hp Hk Hu Hn Hid Hnot.
  pose proof Hu as Htr. apply truthy_Some in Htr.
  apply includes_notIn in Hnot.
  unfold dismiss.
  rewrite (POST_dismiss_lookup (Some seg) (DismissReq.mk (Some u)) t k Hp Hk Htr).
  rewrite (filter_hasId_keyed k t n Hkey Hn Hid).
  cbn [DismissReq.userId str]. rewrite Hnot. cbv zeta.
  rewrite filter_hasId_updateRow, (filter_hasId_keyed k t n Hkey Hn Hid).
  cbn [map hd_error response table trace fst snd mutations].
  exists (setDismissed (dismissedUsers n ++ [u]) n).
  repeat split.
  - apply in_map_iff. exists n. split; [|exact Hn].
    unfold updateRow, hasId. rewrite Hid, Z.eqb_refl. reflexivity.
  - intros E r m Hm.
    destruct (string_dec r "") as [Hr0|Hr0];
      [rewrite listVisible_missing in Hm by auto; destruct Hm|].
    apply (Permutation_in _ (listVisible_perm_filter E u r _ Hu Hr0)) in Hm.
    rewrite filter_visibleTo_updateRow in Hm.
    apply filter_In in Hm. destruct Hm as [_ Hm].
    apply negb_true_iff, Z.eqb_neq in Hm. exact Hm.
Qed.

Lemma dismiss_first_time_witness :
  exists n',
    response (dismiss "4" "user-1" seed) = mkResponse 200 (Dismissed (Some n'))
    /\ dismissedUsers n' = ["user-1"].
Proof.
  destruct (dismiss_first_time "4" 4 "user-1" seed securityAlert)
    as [n' [Hr [_ [Hd _]]]].
  - exact keyed_seed.
  - reflexivity.
  - discriminate.
  - discriminate.
  - simpl. auto.
  - reflexivity.
  - simpl. auto.
  - exists n'. split; [exact Hr|exact Hd].
Defined.
